(** * Nutrition agent: the food matcher, the nutrition aggregator and the
      chat handler of [app.py], embedded and verified.

    Python values are modelled as the program has them:
    - a [str] is the list of its code points;
    - the character tables Python consults ([str.lower], the decimal digits
      accepted by [\d] and [int], the white space of [\s] and [str.strip])
      are the fields of the class [UnicodeData]; general statements hold for
      every table, concrete texts are evaluated with the table of the ASCII
      range;
    - an [int] is a [Z]; the conversions between [int] and [str] raise
      [ValueError] beyond 4300 digits, the limit of the interpreter
      (CPython 3.11 and later); a [float] is a binary64 value of
      [SpecFloat] (precision 53, [emax] 1024) with round-to-nearest-even
      arithmetic, and an [int] too large for a [float] raises
      [OverflowError] where Python converts it;
    - the dictionaries with fixed keys are records; [FOOD_DATA], whose
      iteration order matters, is the list of its entries in insertion
      order;
    - a raised exception is the [Raise] branch of [result]; the effects of
      the chat handler are the list of its events. *)

From Stdlib Require Import ZArith NArith List Bool String Ascii Lia.
From Stdlib Require Import Floats.SpecFloat Numbers.DecimalString.
Import ListNotations.

(** ** Python strings *)

Definition str := list N.

(** A string literal of the source, as its code points. *)
Definition lit (s : string) : str := map N_of_ascii (list_ascii_of_string s).

Definition nl : str := [10%N].

(** [s.startswith(p)] *)
Fixpoint starts_with (p s : str) : bool :=
  match p, s with
  | [], _ => true
  | _ :: _, [] => false
  | a :: p', b :: s' => N.eqb a b && starts_with p' s'
  end.

(** [p in s], the substring test on strings *)
Fixpoint contains (p s : str) : bool :=
  starts_with p s ||
  match s with
  | [] => false
  | _ :: s' => contains p s'
  end.

(** Length of the longest prefix of [s] whose characters satisfy [f]. *)
Fixpoint span (f : N -> bool) (s : str) : nat :=
  match s with
  | c :: s' => if f c then S (span f s') else 0
  | [] => 0
  end.

(** [sep.join(parts)] *)
Fixpoint join (sep : str) (parts : list str) : str :=
  match parts with
  | [] => []
  | [p] => p
  | p :: rest => p ++ sep ++ join sep rest
  end.

(** The decimal numeral of an [int]: the characters of [str(n)]. *)
Definition str_of_int (n : Z) : str := lit (NilZero.string_of_int (Z.to_int n)).

(** ** Exceptions and fallible computations *)

Record exn := Exn { exc_type : string; exc_msg : str }.

Definition OverflowError (msg : string) : exn := Exn "OverflowError" (lit msg).
Definition ValueError (msg : string) : exn := Exn "ValueError" (lit msg).

Inductive result (A : Type) : Type :=
| Ok (a : A)
| Raise (e : exn).

Arguments Ok {A} a.
Arguments Raise {A} e.

Definition bind {A B} (r : result A) (k : A -> result B) : result B :=
  match r with
  | Ok a => k a
  | Raise e => Raise e
  end.

Definition fmap {A B} (f : A -> B) (r : result A) : result B :=
  bind r (fun a => Ok (f a)).

Notation "x <- r ;; k" := (bind r (fun x => k))
  (at level 61, r at next level, right associativity).

(** ** The character tables *)

Class UnicodeData := {
  (** [str.lower] *)
  str_lower : str -> str;
  (** the value of a decimal digit (category Nd), [None] for other
      characters: the characters [\d] matches and [int] accepts *)
  decimal_value : N -> option N;
  (** white space: the characters [\s] matches and [str.strip] removes *)
  is_space : N -> bool
}.

Definition ascii_lower (c : N) : N :=
  if (65 <=? c)%N && (c <=? 90)%N then (c + 32)%N else c.

Definition ascii_decimal (c : N) : option N :=
  if (48 <=? c)%N && (c <=? 57)%N then Some (c - 48)%N else None.

Definition ascii_space (c : N) : bool :=
  ((9 <=? c)%N && (c <=? 13)%N) || ((28 <=? c)%N && (c <=? 32)%N).

(** The tables on the ASCII range; code points from 128 on are taken as
    caseless, neither digit nor white space. *)
#[export] Instance ascii_table : UnicodeData := {
  str_lower := map ascii_lower;
  decimal_value := ascii_decimal;
  is_space := ascii_space
}.

(** ** Numbers *)

Inductive num :=
| PyInt (n : Z)
| PyFloat (x : spec_float).

(** The limit of the interpreter on the digits of an [int] that is read
    from or written to a [str] ([sys.int_info.default_max_str_digits]). *)
Definition int_max_str_digits : nat := 4300.

(** The least number that has more digits than the limit. *)
Definition int_str_bound : Z :=
  Eval vm_compute in (10 ^ Z.of_nat int_max_str_digits)%Z.

(** [str(n)] for an [int], which is also how an f-string formats it:
    [ValueError] for a number of more digits than the limit. *)
Definition py_str (n : Z) : result str :=
  if (int_str_bound <=? Z.abs n)%Z
  then Raise (ValueError "Exceeds the limit (4300 digits) for integer string conversion; use sys.set_int_max_str_digits() to increase the limit")
  else Ok (str_of_int n).

Definition prec : Z := 53.
Definition emax : Z := 1024.

(** The binary64 value nearest to the integer [n] (infinite when out of
    range). *)
Definition Z2SF (n : Z) : spec_float := binary_normalize prec emax n 0 false.

(** The float denoted by the decimal literal [d / 10^k], for [d] and [10^k]
    below [2^53]: the correctly rounded quotient. *)
Definition float_lit (d : Z) (k : Z) : spec_float :=
  SFdiv prec emax (Z2SF d) (Z2SF (10 ^ k)).

Definition dec (d : Z) (k : Z) : num := PyFloat (float_lit d k).

(** Conversion of an [int] operand in mixed arithmetic. *)
Definition int_to_float (n : Z) : result spec_float :=
  match Z2SF n with
  | S754_infinity _ => Raise (OverflowError "int too large to convert to float")
  | x => Ok x
  end.

(** ** The food knowledge base *)

Record NutrientRecord := {
  calories : num;
  protein : num;
  carbs : num;
  fat : num;
  fiber : num;
  notes : str
}.

Definition FOOD_DATA : list (str * NutrientRecord) := [
  (lit "apple",
   {| calories := PyInt 95; protein := dec 5 1; carbs := PyInt 25;
      fat := dec 3 1; fiber := dec 44 1;
      notes := lit "Apples provide fiber and vitamin C. Good for digestion." |});
  (lit "banana",
   {| calories := PyInt 105; protein := dec 13 1; carbs := PyInt 27;
      fat := dec 3 1; fiber := dec 31 1;
      notes := lit "Bananas give quick energy and potassium. Good before exercise." |});
  (lit "orange",
   {| calories := PyInt 62; protein := dec 12 1; carbs := PyInt 15;
      fat := dec 2 1; fiber := dec 31 1;
      notes := lit "Oranges are rich in vitamin C and support immunity." |});
  (lit "rice",
   {| calories := PyInt 200; protein := dec 43 1; carbs := PyInt 45;
      fat := dec 4 1; fiber := dec 6 1;
      notes := lit "Rice gives carbohydrates for energy. Best with vegetables and protein." |});
  (lit "chapati",
   {| calories := PyInt 120; protein := dec 35 1; carbs := PyInt 18;
      fat := dec 37 1; fiber := dec 20 1;
      notes := lit "Chapati (roti) from wheat gives carbs and some fiber." |});
  (lit "dal",
   {| calories := PyInt 180; protein := PyInt 9; carbs := PyInt 26;
      fat := PyInt 3; fiber := PyInt 7;
      notes := lit "Dal provides plant-based protein and good fiber." |});
  (lit "paneer",
   {| calories := PyInt 265; protein := PyInt 18; carbs := PyInt 6;
      fat := PyInt 20; fiber := PyInt 0;
      notes := lit "Paneer is high in protein and fat. Good in moderation." |});
  (lit "milk",
   {| calories := PyInt 103; protein := PyInt 8; carbs := PyInt 12;
      fat := dec 24 1; fiber := PyInt 0;
      notes := lit "Milk provides protein and calcium. Good for bones." |});
  (lit "egg",
   {| calories := PyInt 78; protein := dec 63 1; carbs := dec 6 1;
      fat := dec 53 1; fiber := PyInt 0;
      notes := lit "Eggs are rich in protein and healthy fats." |});
  (lit "almond",
   {| calories := PyInt 7; protein := dec 3 1; carbs := dec 2 1;
      fat := dec 6 1; fiber := dec 3 1;
      notes := lit "Almonds provide healthy fats and vitamin E." |});
  (lit "salad",
   {| calories := PyInt 50; protein := PyInt 2; carbs := PyInt 10;
      fat := dec 5 1; fiber := PyInt 3;
      notes := lit "Vegetable salad is low in calories and high in fiber." |});
  (lit "pizza",
   {| calories := PyInt 285; protein := PyInt 12; carbs := PyInt 36;
      fat := PyInt 10; fiber := PyInt 2;
      notes := lit "Pizza is usually high in calories, refined flour and fats." |});
  (lit "burger",
   {| calories := PyInt 300; protein := PyInt 13; carbs := PyInt 30;
      fat := PyInt 14; fiber := dec 15 1;
      notes := lit "Burgers can have a lot of fats and refined carbs." |});
  (lit "fries",
   {| calories := PyInt 180; protein := PyInt 2; carbs := PyInt 22;
      fat := PyInt 9; fiber := PyInt 2;
      notes := lit "Fries are deep fried and high in unhealthy fats." |});
  (lit "soda",
   {| calories := PyInt 140; protein := PyInt 0; carbs := PyInt 39;
      fat := PyInt 0; fiber := PyInt 0;
      notes := lit "Soda has a lot of sugar and almost no nutrients." |})
].

(** ** The food matcher *)

Record MatchedItem := {
  name : str;
  quantity : Z;
  data : NutrientRecord
}.

Section Matcher.
Context {U : UnicodeData}.

Definition is_digit (c : N) : bool :=
  match decimal_value c with
  | Some _ => true
  | None => false
  end.

(** The value of a string of decimal digits; [ValueError] on any other
    character. *)
Fixpoint int_digits (acc : Z) (s : str) : result Z :=
  match s with
  | [] => Ok acc
  | c :: s' =>
      match decimal_value c with
      | Some d => int_digits (acc * 10 + Z.of_N d) s'
      | None => Raise (ValueError "invalid literal for int() with base 10")
      end
  end.

(** [int(s)] on a string of decimal digits, which is what group 1 of the
    pattern is: its value, or [ValueError] when it has more digits than the
    limit of the interpreter (zeros in front count).  Other strings are
    outside this use: the empty string and a string with any other character
    are given [ValueError] (the signs, underscores and surrounding white
    space that [int] accepts are not modelled). *)
Definition py_int (s : str) : result Z :=
  match s with
  | [] => Raise (ValueError "invalid literal for int() with base 10")
  | _ :: _ =>
      let digits := span is_digit s in
      if (int_max_str_digits <? digits)%nat
      then Raise (Exn "ValueError"
                    (lit "Exceeds the limit (4300 digits) for integer string conversion: value has "
                     ++ str_of_int (Z.of_nat digits)
                     ++ lit " digits; use sys.set_int_max_str_digits() to increase the limit"))
      else int_digits 0 s
  end.

(** The pattern [(\d+)\s*NAMEs?] matched at the start of [s], by
    backtracking as [re] does.  [\s*] first takes the whole run of white
    space and gives characters back one at a time until [NAME] follows.
    The final [s?] also matches the empty string: it makes no match fail
    and leaves group 1 as it is, so it has no part below. *)
Fixpoint try_spaces (food_name s : str) (j : nat) : bool :=
  starts_with food_name (skipn j s) ||
  match j with
  | O => false
  | S j' => try_spaces food_name s j'
  end.

(** [\d+] first takes the whole run of digits and gives digits back one
    at a time, keeping at least one; the result is group 1 of the match. *)
Fixpoint try_digits (food_name s : str) (k : nat) : option str :=
  match k with
  | O => None
  | S k' =>
      let rest := skipn k s in
      if try_spaces food_name rest (span is_space rest)
      then Some (firstn k s)
      else try_digits food_name s k'
  end.

Definition match_at (food_name s : str) : option str :=
  try_digits food_name s (span is_digit s).

(** [re.search(pattern, s)]: the match at the leftmost position that has
    one, represented by its group 1. *)
Fixpoint re_search (food_name s : str) : option str :=
  match match_at food_name s with
  | Some g => Some g
  | None =>
      match s with
      | [] => None
      | _ :: s' => re_search food_name s'
      end
  end.

(** The body of the loop over [FOOD_DATA.items()]: one entry of the table,
    with [items] the list built so far. *)
Definition analyze_entry (lower : str) (items : list MatchedItem)
  (entry : str * NutrientRecord) : result (list MatchedItem) :=
  let '(food_name, d) := entry in
  let m := re_search food_name lower in
  if contains food_name lower then
    q <- match m with
         | Some g => py_int g
         | None => Ok 1%Z
         end ;;
    Ok (items ++ [ {| name := food_name; quantity := q; data := d |} ])
  else Ok items.

Fixpoint analyze_loop (lower : str) (table : list (str * NutrientRecord))
  (items : list MatchedItem) : result (list MatchedItem) :=
  match table with
  | [] => Ok items
  | entry :: table' =>
      items' <- analyze_entry lower items entry ;;
      analyze_loop lower table' items'
  end.

Definition analyze_food_text (text : str) : result (list MatchedItem) :=
  let lower := str_lower text in
  analyze_loop lower FOOD_DATA [].

End Matcher.

(** ** The nutrition aggregator *)

(** [a * q] for an entry [a] of a nutrient record and an [int] [q]. *)
Definition py_mul (a : num) (q : Z) : result num :=
  match a with
  | PyInt n => Ok (PyInt (n * q))
  | PyFloat x => y <- int_to_float q ;; Ok (PyFloat (SFmul prec emax x y))
  end.

(** [t += v] for a [float] [t]. *)
Definition py_iadd (t : spec_float) (v : num) : result spec_float :=
  match v with
  | PyInt n => y <- int_to_float n ;; Ok (SFadd prec emax t y)
  | PyFloat y => Ok (SFadd prec emax t y)
  end.

(** The integer nearest to [n / d] for [0 < d], ties to the even one. *)
Definition round_half_even (n d : Z) : Z :=
  let q := (n / d)%Z in
  match (2 * (n mod d) ?= d)%Z with
  | Lt => q
  | Gt => (q + 1)%Z
  | Eq => if Z.even q then q else (q + 1)%Z
  end.

(** The integer nearest to [m * 2^e], ties to even. *)
Definition round_scaled (m e : Z) : Z :=
  if (0 <=? e)%Z then (m * 2 ^ e)%Z else round_half_even m (2 ^ (- e)).

(** [round(x)] for a [float]. *)
Definition round_float (x : spec_float) : result Z :=
  match x with
  | S754_nan => Raise (ValueError "cannot convert float NaN to integer")
  | S754_infinity _ =>
      Raise (OverflowError "cannot convert float infinity to integer")
  | S754_zero _ => Ok 0%Z
  | S754_finite s m e =>
      let r := round_scaled (Zpos m) e in
      Ok (if s then (- r)%Z else r)
  end.

(** [round(v)]: an [int] is its own rounding. *)
Definition py_round (v : num) : result Z :=
  match v with
  | PyInt n => Ok n
  | PyFloat x => round_float x
  end.

(** The digits of a non-negative number of tenths, with one decimal. *)
Definition tenths (n : Z) : str :=
  str_of_int (n / 10) ++ lit "." ++ str_of_int (n mod 10).

(** [format(x, ".1f")] for a [float]: the exact value rounded to one
    decimal, ties to even; the sign is kept on a result that rounds to 0. *)
Definition fmt_1f (x : spec_float) : str :=
  match x with
  | S754_nan => lit "nan"
  | S754_infinity s => if s then lit "-inf" else lit "inf"
  | S754_zero s => if s then lit "-0.0" else lit "0.0"
  | S754_finite s m e =>
      (if s then lit "-" else []) ++ tenths (round_scaled (Zpos m * 10) e)
  end.

(** [format(v, ".1f")]: an [int] is converted to [float] first. *)
Definition format_1f (v : num) : result str :=
  match v with
  | PyInt n => x <- int_to_float n ;; Ok (fmt_1f x)
  | PyFloat x => Ok (fmt_1f x)
  end.

(** *** [textwrap.dedent] *)

Definition is_blank (c : N) : bool := N.eqb c 32 || N.eqb c 9.

(** [text.split("\n")], with the line read so far in [cur]. *)
Fixpoint split_lines (cur : str) (text : str) : list str :=
  match text with
  | [] => [cur]
  | c :: text' =>
      if N.eqb c 10 then cur :: split_lines [] text'
      else split_lines (cur ++ [c]) text'
  end.

Fixpoint common_prefix (a b : str) : str :=
  match a, b with
  | x :: a', y :: b' => if N.eqb x y then x :: common_prefix a' b' else []
  | _, _ => []
  end.

(** The margin: the longest common leading white space of the lines that
    are not empty. *)
Fixpoint margin_of (lines : list str) : option str :=
  match lines with
  | [] => None
  | l :: rest =>
      match l with
      | [] => margin_of rest
      | _ :: _ =>
          let indent := firstn (span is_blank l) l in
          match margin_of rest with
          | None => Some indent
          | Some m => Some (common_prefix indent m)
          end
      end
  end.

Definition dedent (text : str) : str :=
  let lines := map (fun l => if forallb is_blank l then [] else l)
                   (split_lines [] text) in
  match margin_of lines with
  | None => join nl lines
  | Some margin =>
      join nl (map (fun l => if starts_with margin l
                             then skipn (List.length margin) l else l) lines)
  end.

(** *** [build_nutrition_summary] *)

Record Totals := {
  total_calories : spec_float;
  total_protein : spec_float;
  total_carbs : spec_float;
  total_fat : spec_float;
  total_fiber : spec_float
}.

Definition zero_totals : Totals :=
  let z := S754_zero false in
  {| total_calories := z; total_protein := z; total_carbs := z;
     total_fat := z; total_fiber := z |}.

(** The five products of one item: base value times quantity. *)
Record ItemValues := {
  v_cals : num;
  v_protein : num;
  v_carbs : num;
  v_fat : num;
  v_fiber : num
}.

Definition item_values (item : MatchedItem) : result ItemValues :=
  let q := quantity item in
  let d := data item in
  cals <- py_mul (calories d) q ;;
  protein <- py_mul (protein d) q ;;
  carbs <- py_mul (carbs d) q ;;
  fat <- py_mul (fat d) q ;;
  fiber <- py_mul (fiber d) q ;;
  Ok {| v_cals := cals; v_protein := protein; v_carbs := carbs;
        v_fat := fat; v_fiber := fiber |}.

Definition add_totals (totals : Totals) (v : ItemValues) : result Totals :=
  c <- py_iadd (total_calories totals) (v_cals v) ;;
  p <- py_iadd (total_protein totals) (v_protein v) ;;
  cb <- py_iadd (total_carbs totals) (v_carbs v) ;;
  f <- py_iadd (total_fat totals) (v_fat v) ;;
  fb <- py_iadd (total_fiber totals) (v_fiber v) ;;
  Ok {| total_calories := c; total_protein := p; total_carbs := cb;
        total_fat := f; total_fiber := fb |}.

(** The line appended for one item; the fields of the f-string are
    formatted from left to right. *)
Definition item_line (item : MatchedItem) (v : ItemValues) : result str :=
  q <- py_str (quantity item) ;;
  r <- py_round (v_cals v) ;;
  kcal <- py_str r ;;
  p <- format_1f (v_protein v) ;;
  cb <- format_1f (v_carbs v) ;;
  f <- format_1f (v_fat v) ;;
  fb <- format_1f (v_fiber v) ;;
  Ok (q ++ lit " x " ++ name item ++ lit ": ~"
      ++ kcal ++ lit " kcal "
      ++ lit "(protein: " ++ p ++ lit " g, carbs: " ++ cb ++ lit " g, "
      ++ lit "fat: " ++ f ++ lit " g, fiber: " ++ fb ++ lit " g)").

(** The body of the loop over [food_items]. *)
Definition summary_step (st : Totals * list str) (item : MatchedItem)
  : result (Totals * list str) :=
  let '(totals, lines) := st in
  v <- item_values item ;;
  totals' <- add_totals totals v ;;
  line <- item_line item v ;;
  Ok (totals', lines ++ [line]).

Fixpoint summary_loop (food_items : list MatchedItem) (st : Totals * list str)
  : result (Totals * list str) :=
  match food_items with
  | [] => Ok st
  | item :: rest => st' <- summary_step st item ;; summary_loop rest st'
  end.

(** The totals block, as the f-string builds it before [dedent]. *)
Definition totals_block (totals : Totals) : result str :=
  c <- round_float (total_calories totals) ;;
  kcal <- py_str c ;;
  Ok (lit "
    Total approximate values:
    - Calories: " ++ kcal ++ lit " kcal
    - Protein: " ++ fmt_1f (total_protein totals) ++ lit " g
    - Carbohydrates: " ++ fmt_1f (total_carbs totals) ++ lit " g
    - Fat: " ++ fmt_1f (total_fat totals) ++ lit " g
    - Fiber: " ++ fmt_1f (total_fiber totals) ++ lit " g
    ").

Definition no_foods_message : str :=
  lit "I could not detect any known foods from the text.".

Definition build_nutrition_summary (food_items : list MatchedItem)
  : result str :=
  match food_items with
  | [] => Ok no_foods_message
  | _ :: _ =>
      st <- summary_loop food_items (zero_totals, []) ;;
      let '(totals, lines) := st in
      block <- totals_block totals ;;
      let summary := dedent block in
      Ok (lit "Nutrition breakdown:" ++ nl ++ join nl lines ++ nl ++ nl
          ++ summary)
  end.

(** ** The chat handler *)

(** What a request does to the outside world, in order. *)
Inductive event :=
| GenerateContent (prompt : str)   (** [model.generate_content(prompt)] *)
| Printed (line : str).            (** a line written to standard output *)

(** [jsonify({"reply": reply}), status] *)
Record Response := {
  reply : str;
  status : Z
}.

Definition dq : str := [34%N].
Definition en_dash : str := [8211%N].

Section Chat.
Context {U : UnicodeData}.

(** The generative-text service: the text of the response to a prompt, or
    the exception raised by the call or by reading [response.text].  The
    exceptions of [exn] are instances of [Exception]. *)
Variable service : str -> result str.

Fixpoint lstrip (s : str) : str :=
  match s with
  | c :: s' => if is_space c then lstrip s' else s
  | [] => []
  end.

(** [s.strip()] *)
Definition strip (s : str) : str := rev (lstrip (rev (lstrip s))).

Definition build_prompt (user_message nutrition_summary : str) : str :=
  lit "
You are a friendly nutrition assistant called " ++ dq ++ lit "Nutrition Buddy" ++ dq ++ lit ".
The user will tell you what they ate.
You are given an approximate nutrition summary from a small food database.

Your job:
- Explain the meal's nutrition in very simple, clear English.
- Imagine you are talking to a 10" ++ en_dash ++ lit "12 year old student.
- Be kind, encouraging and non-judgmental.
- If the meal has a lot of junk food (pizza, burger, fries, soda), gently warn the user but do not shame them.
- Always remind the user that you are not a doctor or professional nutritionist.

User message:
" ++ dq ++ user_message ++ dq ++ lit "

Approximate nutrition summary (may not be perfect):
" ++ nutrition_summary ++ lit "

Now respond to the user in friendly, simple English.
Explain what this meal is like (light / moderate / heavy, balanced or not).
Then give a short explanation of the nutrition, and finally give 1" ++ en_dash ++ lit "3 easy tips to improve the meal.
Avoid technical terms and keep it easy to read.
".

(** [data.get("message", "")] *)
Definition message_text (message : option str) : str :=
  match message with
  | Some m => m
  | None => []
  end.

(** [ask_gemini]: the result and the events it caused. *)
Definition ask_gemini (user_message nutrition_summary : str)
  : result str * list event :=
  let prompt := build_prompt user_message nutrition_summary in
  (text <- service prompt ;; Ok (strip text), [GenerateContent prompt]).

Definition empty_reply : str :=
  lit "Please tell me what you ate so I can help.".

Definition fallback_reply : str :=
  lit "There was a problem talking to the AI server. Please try again later.".

(** The handler of [POST /api/chat], for a request whose body is a JSON
    object, on the ["message"] entry of this object: a string, or [None] when
    the object has no such key.  A [Raise] result is an exception that
    leaves the handler. *)
Definition chat (message : option str) : result Response * list event :=
  let user_message := strip (message_text message) in
  match user_message with
  | [] => (Ok {| reply := empty_reply; status := 200 |}, [])
  | _ :: _ =>
      match analyze_food_text user_message with
      | Raise e => (Raise e, [])
      | Ok food_items =>
          match build_nutrition_summary food_items with
          | Raise e => (Raise e, [])
          | Ok nutrition_summary =>
              match ask_gemini user_message nutrition_summary with
              | (Ok r, evs) => (Ok {| reply := r; status := 200 |}, evs)
              | (Raise e, evs) =>
                  (Ok {| reply := fallback_reply; status := 200 |},
                   evs ++ [Printed (lit "Error talking to Gemini: "
                                  ++ exc_msg e)])
              end
          end
      end
  end.

End Chat.

(** * Vocabulary of the statements *)

Section Vocabulary.
Context {U : UnicodeData}.

(** [s] reads: some text, the digits [ds], white space if any, the food
    name, the rest (which may open with the "s" of a plural).  This is when
    the pattern [(\d+)\s*NAMEs?] occurs in [s] with [ds] as its group 1. *)
Definition number_before (food_name ds s : str) : Prop :=
  exists pre ws post,
    s = pre ++ ds ++ ws ++ food_name ++ post /\
    ds <> [] /\
    Forall (fun c => is_digit c = true) ds /\
    Forall (fun c => is_space c = true) ws.

(** The quantity of an item is the number in front of its name, or 1. *)
Definition quantity_ok (lower : str) (it : MatchedItem) : Prop :=
  match re_search (name it) lower with
  | Some g => py_int g = Ok (quantity it)
  | None => quantity it = 1%Z
  end.

(** The number in front of the name of [entry], when the name occurs and a
    number stands there, has no more digits than [int] accepts. *)
Definition number_fits (lower : str) (entry : str * NutrientRecord) : Prop :=
  contains (fst entry) lower = true ->
  forall g, re_search (fst entry) lower = Some g ->
            (List.length g <= int_max_str_digits)%nat.

End Vocabulary.

Definition found (lower : str) (entry : str * NutrientRecord) : bool :=
  contains (fst entry) lower.

Definition entry_of (it : MatchedItem) : str * NutrientRecord :=
  (name it, data it).

(** The names and quantities of the items the matcher returns. *)
Definition quantities (r : result (list MatchedItem)) : result (list (str * Z)) :=
  fmap (map (fun it => (name it, quantity it))) r.

(** The items of a result, none when it is an exception. *)
Definition items_of (r : result (list MatchedItem)) : list MatchedItem :=
  match r with
  | Ok items => items
  | Raise _ => []
  end.

(** The record of a food in the knowledge base: [FOOD_DATA[food]]. *)
Fixpoint lookup (food : str) (table : list (str * NutrientRecord))
  : option NutrientRecord :=
  match table with
  | [] => None
  | (k, d) :: table' =>
      if list_eq_dec N.eq_dec k food then Some d else lookup food table'
  end.

(** The totals the loop of the aggregator holds after [food_items], from
    [totals] on: the loop without its lines. *)
Fixpoint exact_totals (food_items : list MatchedItem) (totals : Totals)
  : result Totals :=
  match food_items with
  | [] => Ok totals
  | item :: rest =>
      v <- item_values item ;;
      totals' <- add_totals totals v ;;
      exact_totals rest totals'
  end.

(** The line of an item is the formatting of its unrounded values. *)
Definition line_of (item : MatchedItem) (line : str) : Prop :=
  exists v, item_values item = Ok v /\ item_line item v = Ok line.

(** What one item contributes to a total, in the words of the spec: the base
    value times the quantity, not rounded for display.  It is the float of
    the integer product for an [int] entry, and the float product with the
    quantity for a [float] entry. *)
Definition unrounded (base : num) (q : Z) : spec_float :=
  match base with
  | PyInt n => Z2SF (n * q)
  | PyFloat x => SFmul prec emax x (Z2SF q)
  end.

(** A total in the words of the spec: the sum, from 0.0 on and in the order
    of the items, of what each item contributes. *)
Definition total_of (field : NutrientRecord -> num)
  (food_items : list MatchedItem) : spec_float :=
  fold_left (fun t item =>
               SFadd prec emax t (unrounded (field (data item)) (quantity item)))
            food_items (S754_zero false).

Definition unrounded_totals (food_items : list MatchedItem) : Totals :=
  {| total_calories := total_of calories food_items;
     total_protein := total_of protein food_items;
     total_carbs := total_of carbs food_items;
     total_fat := total_of fat food_items;
     total_fiber := total_of fiber food_items |}.

(** The calories a line shows: the product itself when it is an [int], the
    nearest integer when it is a [float]. *)
Definition shown_kcal (base : num) (q k : Z) : Prop :=
  match base with
  | PyInt n => k = (n * q)%Z
  | PyFloat _ => round_float (unrounded base q) = Ok k
  end.

(** The line of an item in the words of the spec: quantity and name, the
    calories, and the four other contributions with one decimal. *)
Definition shown_line (item : MatchedItem) (line : str) : Prop :=
  let q := quantity item in
  let d := data item in
  exists k,
    shown_kcal (calories d) q k /\
    line = str_of_int q ++ lit " x " ++ name item ++ lit ": ~"
           ++ str_of_int k ++ lit " kcal (protein: "
           ++ fmt_1f (unrounded (protein d) q) ++ lit " g, carbs: "
           ++ fmt_1f (unrounded (carbs d) q) ++ lit " g, fat: "
           ++ fmt_1f (unrounded (fat d) q) ++ lit " g, fiber: "
           ++ fmt_1f (unrounded (fiber d) q) ++ lit " g)".

(** Two items that differ at most in the notes of their records. *)
Definition same_but_notes (a b : MatchedItem) : Prop :=
  name a = name b /\
  quantity a = quantity b /\
  calories (data a) = calories (data b) /\
  protein (data a) = protein (data b) /\
  carbs (data a) = carbs (data b) /\
  fat (data a) = fat (data b) /\
  fiber (data a) = fiber (data b).

(** An item that contributes 0.34 g of protein. *)
Definition snack : MatchedItem :=
  {| name := lit "snack"; quantity := 1;
     data := {| calories := PyInt 10; protein := dec 34 2; carbs := PyInt 0;
                fat := PyInt 0; fiber := PyInt 0; notes := [] |} |}.

(** The snack with a note. *)
Definition noted_snack : MatchedItem :=
  {| name := lit "snack"; quantity := 1;
     data := {| calories := PyInt 10; protein := dec 34 2; carbs := PyInt 0;
                fat := PyInt 0; fiber := PyInt 0;
                notes := lit "Eat in moderation." |} |}.

(** The summary of three such items. *)
Definition three_snacks_summary : str := lit
"Nutrition breakdown:
1 x snack: ~10 kcal (protein: 0.3 g, carbs: 0.0 g, fat: 0.0 g, fiber: 0.0 g)
1 x snack: ~10 kcal (protein: 0.3 g, carbs: 0.0 g, fat: 0.0 g, fiber: 0.0 g)
1 x snack: ~10 kcal (protein: 0.3 g, carbs: 0.0 g, fat: 0.0 g, fiber: 0.0 g)


Total approximate values:
- Calories: 30 kcal
- Protein: 1.0 g
- Carbohydrates: 0.0 g
- Fat: 0.0 g
- Fiber: 0.0 g
".

(** An item of quantity 2 that contributes 0.34 g of protein. *)
Definition bite : MatchedItem :=
  {| name := lit "bite"; quantity := 2;
     data := {| calories := PyInt 7; protein := dec 17 2; carbs := dec 67 2;
                fat := PyInt 3; fiber := dec 12 2; notes := [] |} |}.

(** The summary of three such items. *)
Definition three_bites_summary : str := lit
"Nutrition breakdown:
2 x bite: ~14 kcal (protein: 0.3 g, carbs: 1.3 g, fat: 6.0 g, fiber: 0.2 g)
2 x bite: ~14 kcal (protein: 0.3 g, carbs: 1.3 g, fat: 6.0 g, fiber: 0.2 g)
2 x bite: ~14 kcal (protein: 0.3 g, carbs: 1.3 g, fat: 6.0 g, fiber: 0.2 g)


Total approximate values:
- Calories: 42 kcal
- Protein: 1.0 g
- Carbohydrates: 4.0 g
- Fat: 18.0 g
- Fiber: 0.7 g
".

(** The summary of two eggs. *)
Definition two_eggs_summary : str := lit
"Nutrition breakdown:
2 x egg: ~156 kcal (protein: 12.6 g, carbs: 1.2 g, fat: 10.6 g, fiber: 0.0 g)


Total approximate values:
- Calories: 156 kcal
- Protein: 12.6 g
- Carbohydrates: 1.2 g
- Fat: 10.6 g
- Fiber: 0.0 g
".

(** The text of 4301 nines, then " apples". *)
Definition long_number_text : str :=
  repeat 57%N 4301 ++ lit " apples".

(** The text "1", then 400 zeros, then " apples". *)
Definition huge_quantity_text : str :=
  lit "1" ++ repeat 48%N 400 ++ lit " apples".

Section Magnitudes.
Local Open Scope Z_scope.

(** [x] is zero or a positive finite float below [2^K]. *)
Definition below (K : Z) (x : spec_float) : Prop :=
  match x with
  | S754_zero _ => True
  | S754_finite false m e => Zpos (digits2_pos m) + e <= K
  | _ => False
  end.

(** An entry of a record that is an [int] from 0 to 1000, or a [float]. *)
Definition small_base (v : num) : Prop :=
  match v with
  | PyInt n => 0 <= n <= 1000
  | PyFloat _ => True
  end.

(** A product that is an [int] below [2^910], or a [float]. *)
Definition small_value (v : num) : Prop :=
  match v with
  | PyInt n => 0 <= n < 2 ^ 910
  | PyFloat _ => True
  end.

(** A record of small entries, the calories an [int]. *)
Definition small_record (d : NutrientRecord) : Prop :=
  (exists c, calories d = PyInt c /\ 0 <= c <= 1000) /\
  small_base (protein d) /\
  small_base (carbs d) /\
  small_base (fat d) /\
  small_base (fiber d).

(** An item with a quantity from 0 to below [2^900] and a small record. *)
Definition small_item (item : MatchedItem) : Prop :=
  0 <= quantity item < 2 ^ 900 /\ small_record (data item).

End Magnitudes.

(** ** Vocabulary of the further properties *)

Section TrimVocabulary.
Context {U : UnicodeData}.

(** [s] neither opens nor ends with white space. *)
Definition trimmed (s : str) : Prop :=
  match s with
  | [] => True
  | c :: _ => is_space c = false
  end /\
  match rev s with
  | [] => True
  | c :: _ => is_space c = false
  end.

End TrimVocabulary.

(** A number as Python holds it: a [float] is a value of the binary64
    format. *)
Definition valid_num (v : num) : Prop :=
  match v with
  | PyInt _ => True
  | PyFloat x => valid_binary prec emax x = true
  end.

(** A record of such numbers. *)
Definition valid_record (d : NutrientRecord) : Prop :=
  valid_num (calories d) /\ valid_num (protein d) /\ valid_num (carbs d) /\
  valid_num (fat d) /\ valid_num (fiber d).

(** [s] has no line break. *)
Definition no_newline (s : str) : Prop := Forall (fun c => c <> 10%N) s.

(** The totals block of [build_nutrition_summary] after [dedent], for every
    value of the totals. *)
Definition totals_text (c : Z) (totals : Totals) : str :=
  lit "
Total approximate values:
- Calories: " ++ str_of_int c ++ lit " kcal
- Protein: " ++ fmt_1f (total_protein totals) ++ lit " g
- Carbohydrates: " ++ fmt_1f (total_carbs totals) ++ lit " g
- Fat: " ++ fmt_1f (total_fat totals) ++ lit " g
- Fiber: " ++ fmt_1f (total_fiber totals) ++ lit " g
".

Section ExactVocabulary.
Local Open Scope Z_scope.

(** The mantissa and exponent of the float of a positive integer of at most
    53 bits. *)
Definition norm53 (q : positive) : positive * Z :=
  shl_align q 0 (Zpos (digits2_pos q) - 53).

End ExactVocabulary.

(** The calories of an item whose record gives them as an [int]. *)
Definition item_calories (item : MatchedItem) : Z :=
  match calories (data item) with
  | PyInt c => c * quantity item
  | PyFloat _ => 0
  end.

(** The calories of a sequence of items, as an integer. *)
Definition calories_sum (food_items : list MatchedItem) : Z :=
  fold_right (fun item acc => item_calories item + acc)%Z 0%Z food_items.

(** An item with calories that are an [int], neither calories nor quantity
    negative. *)
Definition int_calories (item : MatchedItem) : Prop :=
  exists c, calories (data item) = PyInt c /\ (0 <= c)%Z /\
            (0 <= quantity item)%Z.

(** What an item contributes to the total of [field], as an integer, when
    the record has an [int] there. *)
Definition int_product (field : NutrientRecord -> num) (item : MatchedItem)
  : Z :=
  match field (data item) with
  | PyInt n => n * quantity item
  | PyFloat _ => 0
  end.

(** The sum of these contributions, as an integer. *)
Definition int_sum (field : NutrientRecord -> num)
  (food_items : list MatchedItem) : Z :=
  fold_right (fun item acc => int_product field item + acc)%Z 0%Z food_items.

(** An item whose record has an [int] under [field], neither this [int] nor
    the quantity negative. *)
Definition int_entry (field : NutrientRecord -> num) (item : MatchedItem)
  : Prop :=
  exists n, field (data item) = PyInt n /\ (0 <= n)%Z /\
            (0 <= quantity item)%Z.

(** * Properties *)

(** ** Strings *)

Lemma starts_with_app (p post : str) : starts_with p (p ++ post) = true.
Proof.
  induction p as [|a p IH]; simpl; [reflexivity|].
  now rewrite N.eqb_refl, IH.
Qed.

Lemma starts_with_inv (p s : str) :
  starts_with p s = true -> exists post, s = p ++ post.
Proof.
  revert s; induction p as [|a p IH]; intros s H.
  - now exists s.
  - destruct s as [|b s]; simpl in H; [discriminate|].
    apply andb_true_iff in H as [Hab Hps].
    apply N.eqb_eq in Hab; subst b.
    destruct (IH _ Hps) as [post ->].
    now exists post.
Qed.

Lemma contains_inv (p s : str) :
  contains p s = true -> exists pre post, s = pre ++ p ++ post.
Proof.
  induction s as [|c s IH]; simpl; intros H.
  - rewrite orb_false_r in H.
    destruct (starts_with_inv _ _ H) as [post E].
    now exists [], post.
  - apply orb_true_iff in H as [H|H].
    + destruct (starts_with_inv _ _ H) as [post E].
      now exists [], post.
    + destruct (IH H) as (pre & post & ->).
      now exists (c :: pre), post.
Qed.

Lemma contains_here (p s : str) : starts_with p s = true -> contains p s = true.
Proof. intros H. destruct s; simpl; rewrite H; reflexivity. Qed.

Lemma contains_app (pre p post : str) : contains p (pre ++ p ++ post) = true.
Proof.
  induction pre as [|c pre IH].
  - simpl app. apply contains_here, starts_with_app.
  - simpl. rewrite IH. apply orb_true_r.
Qed.

Lemma span_le (f : N -> bool) (s : str) : (span f s <= List.length s)%nat.
Proof.
  induction s as [|c s IH]; simpl; [lia|].
  destruct (f c); simpl; lia.
Qed.

Lemma span_firstn (f : N -> bool) (s : str) (k : nat) :
  (k <= span f s)%nat -> Forall (fun c => f c = true) (firstn k s).
Proof.
  revert k; induction s as [|c s IH]; intros k Hk.
  - rewrite firstn_nil. constructor.
  - destruct k as [|k]; [constructor|].
    simpl in Hk |- *. destruct (f c) eqn:Hc; [|lia].
    constructor; [assumption|apply IH; lia].
Qed.

Lemma span_app_ge (f : N -> bool) (a b : str) :
  Forall (fun c => f c = true) a -> (List.length a <= span f (a ++ b))%nat.
Proof.
  induction 1 as [|c a Hc _ IH]; simpl; [lia|].
  rewrite Hc. lia.
Qed.

(** ** The quantity pattern *)

Section MatcherFacts.
Context {U : UnicodeData}.

Lemma try_spaces_sound (food_name s : str) (j : nat) :
  (j <= span is_space s)%nat ->
  try_spaces food_name s j = true ->
  exists ws post,
    s = ws ++ food_name ++ post /\ Forall (fun c => is_space c = true) ws.
Proof.
  induction j as [|j IH]; simpl; intros Hj H.
  - rewrite orb_false_r in H.
    destruct (starts_with_inv _ _ H) as [post E].
    now exists [], post.
  - apply orb_true_iff in H as [H|H]; [|apply IH; [lia|assumption]].
    destruct (starts_with_inv _ _ H) as [post E].
    exists (firstn (S j) s), post. split.
    + rewrite <- E. symmetry. apply firstn_skipn.
    + now apply span_firstn.
Qed.

Lemma try_spaces_complete (food_name s : str) (j j' : nat) :
  (j' <= j)%nat ->
  starts_with food_name (skipn j' s) = true ->
  try_spaces food_name s j = true.
Proof.
  induction j as [|j IH]; intros Hle H.
  - assert (j' = 0)%nat by lia. subst. simpl in *. now rewrite H.
  - cbn [try_spaces]. destruct (Nat.eq_dec j' (S j)) as [->|Hne].
    + now rewrite H.
    + rewrite IH by (assumption || lia). apply orb_true_r.
Qed.

Lemma try_digits_sound (food_name s : str) (k : nat) (g : str) :
  (k <= span is_digit s)%nat ->
  try_digits food_name s k = Some g ->
  number_before food_name g s /\ starts_with g s = true.
Proof.
  induction k as [|k IH]; intros Hk H; [discriminate|].
  cbn [try_digits] in H.
  destruct (try_spaces food_name (skipn (S k) s)
              (span is_space (skipn (S k) s))) eqn:Hs.
  - replace g with (firstn (S k) s) by congruence. clear H.
    destruct (try_spaces_sound _ _ _ (le_n _) Hs) as (ws & post & E & Hws).
    assert (Hsplit : s = firstn (S k) s ++ ws ++ food_name ++ post).
    { rewrite <- E. symmetry. apply firstn_skipn. }
    split.
    + exists [], ws, post. repeat split.
      * exact Hsplit.
      * destruct s; [simpl in Hk; lia|discriminate].
      * now apply span_firstn.
      * exact Hws.
    + rewrite Hsplit at 2. apply starts_with_app.
  - apply IH; [lia|assumption].
Qed.

Lemma try_digits_complete (food_name s : str) (k k' : nat) :
  (1 <= k' <= k)%nat ->
  try_spaces food_name (skipn k' s) (span is_space (skipn k' s)) = true ->
  exists g, try_digits food_name s k = Some g.
Proof.
  induction k as [|k IH]; intros Hk H; [lia|].
  cbn [try_digits].
  destruct (try_spaces food_name (skipn (S k) s)
              (span is_space (skipn (S k) s))) eqn:Hs; [eauto|].
  destruct (Nat.eq_dec k' (S k)) as [->|Hne]; [congruence|].
  apply IH; [lia|assumption].
Qed.

Lemma match_at_complete (food_name ds ws post : str) :
  ds <> [] ->
  Forall (fun c => is_digit c = true) ds ->
  Forall (fun c => is_space c = true) ws ->
  exists g, match_at food_name (ds ++ ws ++ food_name ++ post) = Some g.
Proof.
  intros Hne Hds Hws. unfold match_at.
  apply try_digits_complete with (k' := List.length ds).
  - split; [destruct ds; [congruence|simpl; lia]|now apply span_app_ge].
  - rewrite skipn_app, skipn_all, Nat.sub_diag. simpl.
    apply try_spaces_complete with (j' := List.length ws).
    + now apply span_app_ge.
    + rewrite skipn_app, skipn_all, Nat.sub_diag. simpl.
      apply starts_with_app.
Qed.

(** What [re.search] returns is a number in front of the food name. *)
Lemma re_search_sound (food_name s g : str) :
  re_search food_name s = Some g -> number_before food_name g s.
Proof.
  induction s as [|c s IH]; cbn [re_search]; intros H.
  - discriminate.
  - destruct (match_at food_name (c :: s)) eqn:Hm.
    + injection H as ->. now apply try_digits_sound in Hm.
    + destruct (IH H) as (pre & ws & post & E & Hrest).
      exists (c :: pre), ws, post. split; [now rewrite E|exact Hrest].
Qed.

Lemma re_search_here (food_name s g : str) :
  match_at food_name s = Some g -> re_search food_name s = Some g.
Proof. intros H. destruct s; cbn [re_search]; now rewrite H. Qed.

(** [re.search] finds a match whenever a number stands in front of the
    food name. *)
Lemma re_search_complete (food_name ds s : str) :
  number_before food_name ds s -> exists g, re_search food_name s = Some g.
Proof.
  intros (pre & ws & post & -> & Hne & Hds & Hws).
  induction pre as [|c pre IH].
  - destruct (match_at_complete food_name ds ws post Hne Hds Hws) as [g Hg].
    exists g. now apply re_search_here.
  - cbn [app re_search]. destruct (match_at food_name (c :: pre ++ ds ++ ws ++ food_name ++ post));
      [eauto|exact IH].
Qed.

(** The value of a string of digits is not negative, and 0 for zero digits
    only. *)
Lemma int_digits_ok (s : str) (acc : Z) :
  Forall (fun c => is_digit c = true) s ->
  (0 <= acc)%Z ->
  exists z, int_digits acc s = Ok z /\ (acc <= z)%Z /\
    (z = 0%Z -> Forall (fun c => decimal_value c = Some 0%N) s).
Proof.
  intros Hs. revert acc.
  induction Hs as [|c s Hc _ IH]; intros acc Hacc; simpl.
  - exists acc. repeat split; [lia|constructor].
  - unfold is_digit in Hc.
    destruct (decimal_value c) as [d|] eqn:Hd; [|discriminate].
    destruct (IH (acc * 10 + Z.of_N d)%Z ltac:(lia)) as (z & E & Hle & Hz).
    exists z. repeat split; [exact E|lia|].
    intros ->. constructor; [|now apply Hz].
    rewrite Hd. f_equal. lia.
Qed.

Lemma span_all (f : N -> bool) (s : str) :
  Forall (fun c => f c = true) s -> span f s = List.length s.
Proof.
  induction 1 as [|c s Hc _ IH]; cbn [span List.length]; [reflexivity|].
  now rewrite Hc, IH.
Qed.

(** [int] accepts a non-empty string of digits exactly when it has no more
    digits than the limit. *)
Lemma py_int_ok (s : str) :
  s <> [] -> Forall (fun c => is_digit c = true) s ->
  (List.length s <= int_max_str_digits)%nat ->
  exists z, py_int s = Ok z /\ (0 <= z)%Z /\
    (z = 0%Z -> Forall (fun c => decimal_value c = Some 0%N) s).
Proof.
  intros Hne Hs Hlen. destruct s as [|c s]; [congruence|].
  unfold py_int. cbv zeta. rewrite (span_all _ _ Hs).
  destruct (Nat.ltb_spec int_max_str_digits (List.length (c :: s))) as [Hlt|_];
    [lia|].
  apply int_digits_ok; [assumption|lia].
Qed.

Lemma py_int_long (s : str) :
  Forall (fun c => is_digit c = true) s ->
  (int_max_str_digits < List.length s)%nat ->
  exists e, py_int s = Raise e /\ exc_type e = "ValueError"%string.
Proof.
  intros Hs Hlen. destruct s as [|c s]; [cbn in Hlen; lia|].
  unfold py_int. cbv zeta. rewrite (span_all _ _ Hs).
  destruct (Nat.ltb_spec int_max_str_digits (List.length (c :: s))) as [_|Hle];
    [|lia].
  eexists. split; reflexivity.
Qed.

(** What [int] returns for a string of digits. *)
Lemma py_int_inv (s : str) (z : Z) :
  Forall (fun c => is_digit c = true) s ->
  py_int s = Ok z ->
  (List.length s <= int_max_str_digits)%nat /\ (0 <= z)%Z /\
  (z = 0%Z -> Forall (fun c => decimal_value c = Some 0%N) s).
Proof.
  intros Hs H.
  destruct (Nat.le_gt_cases (List.length s) int_max_str_digits) as [Hle|Hgt].
  - split; [exact Hle|].
    destruct s as [|c s]; [discriminate|].
    destruct (py_int_ok (c :: s) ltac:(discriminate) Hs Hle) as (z' & E & Hz).
    replace z with z' by congruence. exact Hz.
  - destruct (py_int_long s Hs Hgt) as (e & E & _). congruence.
Qed.

End MatcherFacts.

(** *** The leftmost number *)

Section LeftmostNumber.
Context {U : UnicodeData}.

Lemma span_exact (f : N -> bool) (a b : str) :
  Forall (fun c => f c = true) a ->
  match b with
  | [] => True
  | c :: _ => f c = false
  end ->
  span f (a ++ b) = List.length a.
Proof.
  intros Ha Hb. induction Ha as [|c a Hc _ IH]; cbn [app span List.length].
  - destruct b as [|c b]; [reflexivity|]. cbn [span]. now rewrite Hb.
  - now rewrite Hc, IH.
Qed.

(** No match of the pattern starts on a character that is no digit. *)
Lemma re_search_skip (food_name pre rest : str) :
  Forall (fun c => is_digit c = false) pre ->
  re_search food_name (pre ++ rest) = re_search food_name rest.
Proof.
  induction 1 as [|c pre Hc _ IH]; [reflexivity|].
  cbn [app re_search]. unfold match_at at 1. cbn [span]. rewrite Hc.
  cbn [try_digits]. exact IH.
Qed.

Lemma try_digits_top (food_name s : str) (k : nat) :
  try_spaces food_name (skipn (S k) s) (span is_space (skipn (S k) s)) = true ->
  try_digits food_name s (S k) = Some (firstn (S k) s).
Proof. intros H. cbn [try_digits]. now rewrite H. Qed.

(** At a run of digits that ends before white space or the name, the match
    takes the whole run. *)
Lemma match_at_whole_run (food_name ds ws post : str) :
  ds <> [] ->
  Forall (fun c => is_digit c = true) ds ->
  Forall (fun c => is_space c = true) ws ->
  match ws ++ food_name ++ post with
  | [] => True
  | c :: _ => is_digit c = false
  end ->
  match_at food_name (ds ++ ws ++ food_name ++ post) = Some ds.
Proof.
  intros Hne Hds Hws Hnext. unfold match_at.
  rewrite (span_exact is_digit ds _ Hds Hnext).
  destruct (List.length ds) as [|k] eqn:Hk;
    [destruct ds; [congruence|discriminate]|].
  rewrite try_digits_top; rewrite <- Hk.
  - now rewrite firstn_app, firstn_all, Nat.sub_diag, app_nil_r.
  - rewrite skipn_app, skipn_all, Nat.sub_diag. cbn [skipn app].
    apply try_spaces_complete with (j' := List.length ws).
    + now apply span_app_ge.
    + rewrite skipn_app, skipn_all, Nat.sub_diag. cbn [skipn app].
      apply starts_with_app.
Qed.

End LeftmostNumber.

(** ** The matcher *)

Section MatcherSpec.
Context {U : UnicodeData}.

Lemma analyze_entry_spec (lower : str) (items r : list MatchedItem)
  (entry : str * NutrientRecord) :
  analyze_entry lower items entry = Ok r ->
  exists new,
    r = items ++ new /\
    map entry_of new = filter (found lower) [entry] /\
    Forall (quantity_ok lower) new.
Proof.
  destruct entry as [food_name d].
  unfold analyze_entry, found. cbn [filter fst].
  destruct (contains food_name lower).
  - destruct (re_search food_name lower) as [g|] eqn:Hre.
    + destruct (py_int g) as [z|e] eqn:Hz; cbn [bind]; [|discriminate].
      intros H.
      exists [ {| name := food_name; quantity := z; data := d |} ].
      split; [congruence|]. split; [reflexivity|].
      constructor; [|constructor].
      unfold quantity_ok. cbn [name quantity]. now rewrite Hre.
    + cbn [bind]. intros H.
      exists [ {| name := food_name; quantity := 1; data := d |} ].
      split; [congruence|]. split; [reflexivity|].
      constructor; [|constructor].
      unfold quantity_ok. cbn [name quantity]. now rewrite Hre.
  - intros H. exists []. rewrite app_nil_r.
    split; [congruence|]. split; [reflexivity|constructor].
Qed.

Lemma analyze_loop_spec (lower : str) (table : list (str * NutrientRecord)) :
  forall items r,
    analyze_loop lower table items = Ok r ->
    exists new,
      r = items ++ new /\
      map entry_of new = filter (found lower) table /\
      Forall (quantity_ok lower) new.
Proof.
  induction table as [|entry table IH]; intros items r H.
  - cbn in H. exists []. rewrite app_nil_r.
    split; [congruence|]. split; [reflexivity|constructor].
  - cbn [analyze_loop] in H.
    destruct (analyze_entry lower items entry) as [r1|e] eqn:E1;
      [|discriminate].
    cbn [bind] in H.
    destruct (analyze_entry_spec lower items r1 entry E1) as (n1 & -> & M1 & Q1).
    destruct (IH (items ++ n1) r H) as (n2 & -> & M2 & Q2).
    exists (n1 ++ n2). split; [now rewrite app_assoc|]. split.
    + rewrite map_app, M1, M2. cbn [filter].
      destruct (found lower entry); reflexivity.
    + apply Forall_app. now split.
Qed.

(** Whenever the matcher returns, it returns the items of the table entries
    found in the lowered text, in table order, each with its quantity. *)
Lemma analyze_food_text_spec (text : str) (items : list MatchedItem) :
  analyze_food_text text = Ok items ->
  map entry_of items = filter (found (str_lower text)) FOOD_DATA /\
  Forall (quantity_ok (str_lower text)) items.
Proof.
  intros H.
  destruct (analyze_loop_spec (str_lower text) FOOD_DATA [] items H)
    as (new & E & M & Q).
  cbn [app] in E. subst new. now split.
Qed.

(** The quantity of an item is at least 0, and 0 only for a number of zero
    digits alone. *)
Lemma quantity_ok_nonneg (lower : str) (it : MatchedItem) :
  quantity_ok lower it ->
  (0 <= quantity it)%Z /\
  (quantity it = 0%Z ->
   exists ds, number_before (name it) ds lower /\
              Forall (fun c => decimal_value c = Some 0%N) ds).
Proof.
  unfold quantity_ok. intros Hq.
  destruct (re_search (name it) lower) as [g|] eqn:Hre.
  - pose proof (re_search_sound _ _ _ Hre) as Hnb.
    destruct Hnb as (pre & ws & post & Es & Hne & Hds & Hws).
    destruct (py_int_inv _ _ Hds Hq) as (_ & Hpos & Hzero).
    split; [assumption|].
    intros H0. exists g. split; [|now apply Hzero].
    now exists pre, ws, post.
  - rewrite Hq. split; [lia|discriminate].
Qed.

(** The loop raises what [int] raises at the first entry. *)
Lemma analyze_loop_raise_first (lower food_name g : str) (d : NutrientRecord)
  (table : list (str * NutrientRecord)) (items : list MatchedItem) (e : exn) :
  contains food_name lower = true ->
  re_search food_name lower = Some g ->
  py_int g = Raise e ->
  analyze_loop lower ((food_name, d) :: table) items = Raise e.
Proof.
  intros Hc Hre He. cbn [analyze_loop]. unfold analyze_entry.
  now rewrite Hc, Hre, He.
Qed.

(** An entry whose name does not occur adds no item, whatever the text. *)
Lemma analyze_loop_none (lower : str) (table : list (str * NutrientRecord)) :
  forall items,
    Forall (fun entry => found lower entry = false) table ->
    analyze_loop lower table items = Ok items.
Proof.
  induction table as [|[food_name d] table IH]; intros items Hall;
    [reflexivity|].
  inversion Hall as [|? ? Hf Hrest]; subst.
  cbn [analyze_loop]. unfold analyze_entry, found in *. cbn [fst] in Hf.
  rewrite Hf. cbn [bind]. now apply IH.
Qed.

(** On a text without any food name the matcher returns no item. *)
Lemma analyze_food_text_none (text : str) :
  (forall food d, In (food, d) FOOD_DATA ->
                  contains food (str_lower text) = false) ->
  analyze_food_text text = Ok [].
Proof.
  intros Hnone. apply analyze_loop_none.
  apply Forall_forall. intros [food d] Hin. exact (Hnone food d Hin).
Qed.

(** The loop returns when the number in front of every name found has no
    more digits than [int] accepts. *)
Lemma analyze_loop_returns (lower : str) (table : list (str * NutrientRecord)) :
  forall items,
    Forall (number_fits lower) table ->
    exists r, analyze_loop lower table items = Ok r.
Proof.
  induction table as [|[food_name d] table IH]; intros items Hall;
    [cbn; eauto|].
  inversion Hall as [|? ? Hfit Hrest]; subst.
  cbn [analyze_loop]. unfold analyze_entry.
  unfold number_fits in Hfit. cbn [fst] in Hfit.
  destruct (contains food_name lower); cbn [bind]; [|now apply IH].
  destruct (re_search food_name lower) as [g|] eqn:Hre; cbn [bind];
    [|now apply IH].
  destruct (re_search_sound _ _ _ Hre) as (_ & _ & _ & _ & Hne & Hds & _).
  destruct (py_int_ok g Hne Hds (Hfit eq_refl g eq_refl)) as (z & -> & _).
  cbn [bind]. now apply IH.
Qed.

(** The loop raises only [ValueError], and only at a name found behind a
    number of more digits than [int] accepts. *)
Lemma analyze_loop_raises (lower : str) (table : list (str * NutrientRecord)) :
  forall items e,
    analyze_loop lower table items = Raise e ->
    exc_type e = "ValueError"%string /\
    Exists (fun entry => ~ number_fits lower entry) table.
Proof.
  induction table as [|[food_name d] table IH]; intros items e H;
    [discriminate|].
  cbn [analyze_loop] in H. unfold analyze_entry in H.
  destruct (contains food_name lower) eqn:Hc; cbn [bind] in H.
  - destruct (re_search food_name lower) as [g|] eqn:Hre; cbn [bind] in H.
    + destruct (re_search_sound _ _ _ Hre) as (_ & _ & _ & _ & Hne & Hds & _).
      destruct (Nat.le_gt_cases (List.length g) int_max_str_digits)
        as [Hle|Hgt].
      * destruct (py_int_ok g Hne Hds Hle) as (z & Hz & _).
        rewrite Hz in H. cbn [bind] in H.
        destruct (IH _ _ H) as (Ht & Hex). split; [exact Ht|].
        now apply Exists_cons_tl.
      * destruct (py_int_long g Hds Hgt) as (e' & He' & Ht).
        rewrite He' in H. cbn [bind] in H.
        split; [congruence|]. apply Exists_cons_hd.
        unfold number_fits. cbn [fst]. intros Hfit.
        specialize (Hfit Hc g Hre). lia.
    + destruct (IH _ _ H) as (Ht & Hex). split; [exact Ht|].
      now apply Exists_cons_tl.
  - destruct (IH _ _ H) as (Ht & Hex). split; [exact Ht|].
    now apply Exists_cons_tl.
Qed.

(** Filtering the table keeps its names distinct. *)
Lemma found_names_NoDup (lower : str) (table : list (str * NutrientRecord)) :
  NoDup (map fst table) -> NoDup (map fst (filter (found lower) table)).
Proof.
  induction table as [|entry table IH]; cbn [map filter]; intros Hnd;
    [constructor|].
  apply NoDup_cons_iff in Hnd as [Hfresh Hnd].
  destruct (found lower entry); cbn [map]; [|now apply IH].
  apply NoDup_cons; [|now apply IH].
  intros Hin. apply Hfresh.
  apply in_map_iff in Hin as (e & He & Hein).
  apply filter_In in Hein as [Hein _].
  apply in_map_iff. now exists e.
Qed.

End MatcherSpec.

Lemma FOOD_DATA_names_NoDup : NoDup (map fst FOOD_DATA).
Proof.
  vm_compute.
  repeat (constructor; [cbn; intuition discriminate|]).
  constructor.
Qed.

Lemma NoDup_map_eq {A B} (f : A -> B) (l : list A) (x y : A) :
  NoDup (map f l) -> In x l -> In y l -> f x = f y -> x = y.
Proof.
  induction l as [|a l IH]; simpl; intros Hnd Hx Hy E; [contradiction|].
  inversion Hnd as [|? ? Hnotin Hnd']; subst.
  destruct Hx as [->|Hx], Hy as [->|Hy]; auto.
  - exfalso. apply Hnotin. rewrite E. now apply in_map.
  - exfalso. apply Hnotin. rewrite <- E. now apply in_map.
Qed.

(** The matcher on 4301 nines and " apples". *)
Lemma analyze_long_number_text :
  analyze_food_text long_number_text =
    Raise (Exn "ValueError" (lit "Exceeds the limit (4300 digits) for integer string conversion: value has 4301 digits; use sys.set_int_max_str_digits() to increase the limit")).
Proof.
  assert (Hlow : str_lower long_number_text = long_number_text)
    by (vm_compute; reflexivity).
  assert (Hc : contains (lit "apple") long_number_text = true)
    by (vm_compute; reflexivity).
  assert (Hre : re_search (lit "apple") long_number_text
                = Some (repeat 57%N 4301)).
  { apply re_search_here.
    apply (match_at_whole_run (lit "apple") (repeat 57%N 4301) (lit " ")
             (lit "s")).
    - discriminate.
    - apply Forall_forall. intros c Hin. apply repeat_spec in Hin. now subst c.
    - repeat constructor.
    - reflexivity. }
  change (analyze_loop (str_lower long_number_text) FOOD_DATA [] =
          Raise (Exn "ValueError" (lit "Exceeds the limit (4300 digits) for integer string conversion: value has 4301 digits; use sys.set_int_max_str_digits() to increase the limit"))).
  rewrite Hlow. unfold FOOD_DATA.
  apply analyze_loop_raise_first with (g := repeat 57%N 4301);
    [exact Hc|exact Hre|vm_compute; reflexivity].
Qed.

(** C5 fails on the code.  The text of 4301 nines and " apples" contains
    the food name apple, and the matcher emits no item for it: the number in
    front of the name has more digits than [int] accepts, the conversion
    raises [ValueError], and the exception leaves the matcher and then the
    chat handler, before the service is called. *)
Theorem matcher_number_too_long :
  contains (lit "apple") (str_lower long_number_text) = true /\
  analyze_food_text long_number_text =
    Raise (Exn "ValueError" (lit "Exceeds the limit (4300 digits) for integer string conversion: value has 4301 digits; use sys.set_int_max_str_digits() to increase the limit")) /\
  forall service : str -> result str,
    chat service (Some long_number_text) =
      (Raise (Exn "ValueError" (lit "Exceeds the limit (4300 digits) for integer string conversion: value has 4301 digits; use sys.set_int_max_str_digits() to increase the limit")),
       []).
Proof.
  split; [vm_compute; reflexivity|].
  split; [exact analyze_long_number_text|].
  assert (Hs : strip (message_text (Some long_number_text)) = long_number_text)
    by (vm_compute; reflexivity).
  intros service. unfold chat.
  rewrite Hs, analyze_long_number_text. reflexivity.
Qed.

(** C1, as stated, fails: for the text "0 apples" the matcher emits the
    item of apple with quantity 0. *)
Lemma matcher_emits_zero_quantity :
  exists items,
    analyze_food_text (lit "0 apples") = Ok items /\
    ~ Forall (fun it => (1 <= quantity it)%Z) items.
Proof.
  eexists. split; [vm_compute; reflexivity|].
  intros H. inversion H as [|? ? Hq _]; subst.
  cbn in Hq. lia.
Qed.

(** C1, amended. Every item the matcher emits has a quantity of at least 0,
    and the quantity is 0 only when a number written with zero digits alone
    stands in front of the food name; every other item has a quantity of at
    least 1. *)
Theorem matcher_quantity_nonnegative {U : UnicodeData}
  (text : str) (items : list MatchedItem) :
  analyze_food_text text = Ok items ->
  Forall (fun it =>
            (0 <= quantity it)%Z /\
            (quantity it = 0%Z ->
             exists ds, number_before (name it) ds (str_lower text) /\
                        Forall (fun c => decimal_value c = Some 0%N) ds))
         items.
Proof.
  intros H.
  destruct (analyze_food_text_spec text items H) as (_ & Q).
  eapply Forall_impl; [|exact Q].
  intros it. apply quantity_ok_nonneg.
Qed.

Lemma matcher_quantity_nonnegative_witness :
  Forall (fun it =>
            (0 <= quantity it)%Z /\
            (quantity it = 0%Z ->
             exists ds, number_before (name it) ds
                          (str_lower (lit "3 Eggs and 0 apples")) /\
                        Forall (fun c => decimal_value c = Some 0%N) ds))
         (items_of (analyze_food_text (lit "3 Eggs and 0 apples"))).
Proof.
  apply (matcher_quantity_nonnegative (lit "3 Eggs and 0 apples")).
  vm_compute. reflexivity.
Defined.

(** C4. "2 chapatis" gives chapati with quantity 2 and "chapati" gives it
    with quantity 1.  In general the quantity of an emitted item is read
    from a number that stands in front of its name in the lowered text
    (digits, then white space if any, then the name), and when no number
    stands there the quantity is 1: so it is for a number spelled out and
    for a number that follows the name. *)
Theorem quantity_extraction :
  quantities (analyze_food_text (lit "2 chapatis")) = Ok [(lit "chapati", 2%Z)] /\
  quantities (analyze_food_text (lit "chapati")) = Ok [(lit "chapati", 1%Z)] /\
  quantities (analyze_food_text (lit "two chapatis")) = Ok [(lit "chapati", 1%Z)] /\
  quantities (analyze_food_text (lit "chapati 2")) = Ok [(lit "chapati", 1%Z)] /\
  forall (U : UnicodeData) (text : str) (items : list MatchedItem)
         (it : MatchedItem),
    analyze_food_text text = Ok items ->
    In it items ->
    (exists ds, number_before (name it) ds (str_lower text) /\
                py_int ds = Ok (quantity it))
    \/
    (quantity it = 1%Z /\
     forall ds, ~ number_before (name it) ds (str_lower text)).
Proof.
  repeat (split; [vm_compute; reflexivity|]).
  intros U text items it H Hin.
  destruct (analyze_food_text_spec text items H) as (_ & Q).
  rewrite Forall_forall in Q. specialize (Q it Hin).
  unfold quantity_ok in Q.
  destruct (re_search (name it) (str_lower text)) as [g|] eqn:Hre.
  - left. exists g. split; [now apply re_search_sound|assumption].
  - right. split; [assumption|].
    intros ds Hnb. destruct (re_search_complete _ _ _ Hnb) as [g Hg].
    congruence.
Qed.

Lemma quantity_extraction_witness :
  let text := lit "I had 12  Bananas" in
  let it := {| name := lit "banana"; quantity := 12;
               data := {| calories := PyInt 105; protein := dec 13 1;
                          carbs := PyInt 27; fat := dec 3 1; fiber := dec 31 1;
                          notes := lit "Bananas give quick energy and potassium. Good before exercise." |} |} in
  (exists ds, number_before (name it) ds (str_lower text) /\
              py_int ds = Ok (quantity it))
  \/
  (quantity it = 1%Z /\
   forall ds, ~ number_before (name it) ds (str_lower text)).
Proof.
  intros text it.
  apply (proj2 (proj2 (proj2 (proj2 quantity_extraction)))
           ascii_table text [it] it).
  - vm_compute. reflexivity.
  - left. reflexivity.
Defined.

(** ** The aggregator *)

Lemma summary_loop_totals (food_items : list MatchedItem) :
  forall st totals lines,
    summary_loop food_items st = Ok (totals, lines) ->
    exact_totals food_items (fst st) = Ok totals.
Proof.
  induction food_items as [|item rest IH]; intros [t ls] totals lines H.
  - cbn in H |- *. congruence.
  - cbn [summary_loop summary_step] in H. cbn [exact_totals fst].
    destruct (item_values item) as [v|e]; [|discriminate].
    cbn [bind] in H |- *.
    destruct (add_totals t v) as [t'|e]; [|discriminate].
    cbn [bind] in H |- *.
    destruct (item_line item v) as [line|e]; [|discriminate].
    cbn [bind] in H. apply (IH _ _ _ H).
Qed.

Lemma summary_loop_lines (food_items : list MatchedItem) :
  forall st totals lines,
    summary_loop food_items st = Ok (totals, lines) ->
    exists new, lines = snd st ++ new /\ Forall2 line_of food_items new.
Proof.
  induction food_items as [|item rest IH]; intros [t ls] totals lines H.
  - cbn in H. exists []. cbn [snd]. rewrite app_nil_r.
    split; [congruence|constructor].
  - cbn [summary_loop summary_step] in H.
    destruct (item_values item) as [v|e] eqn:Hv; [|discriminate].
    cbn [bind] in H.
    destruct (add_totals t v) as [t'|e]; [|discriminate].
    cbn [bind] in H.
    destruct (item_line item v) as [line|e] eqn:Hl; [|discriminate].
    cbn [bind] in H.
    destruct (IH _ _ _ H) as (new & E & F). cbn [snd] in E |- *.
    exists (line :: new). split.
    + rewrite E, <- app_assoc. reflexivity.
    + constructor; [now exists v|assumption].
Qed.

(** C2. The text "I ate 2 chapatis and 1 dal" gives the items chapati with
    quantity 2 and dal with quantity 1, in this order, each with its record
    of the table; their values are 240 kcal, 7.0, 36, 7.4, 4.0 and 180 kcal,
    9, 26, 3, 7; the totals are 420, 16.0, 62.0, 10.4, 11.0; and the summary
    shows these numbers. *)
Theorem chapati_dal_scenario :
  exists chapati dal,
    lookup (lit "chapati") FOOD_DATA = Some chapati /\
    lookup (lit "dal") FOOD_DATA = Some dal /\
    let items := [ {| name := lit "chapati"; quantity := 2; data := chapati |};
                   {| name := lit "dal"; quantity := 1; data := dal |} ] in
    analyze_food_text (lit "I ate 2 chapatis and 1 dal") = Ok items /\
    map item_values items =
      [ Ok {| v_cals := PyInt 240; v_protein := dec 70 1; v_carbs := PyInt 36;
              v_fat := dec 74 1; v_fiber := dec 40 1 |};
        Ok {| v_cals := PyInt 180; v_protein := PyInt 9; v_carbs := PyInt 26;
              v_fat := PyInt 3; v_fiber := PyInt 7 |} ] /\
    exact_totals items zero_totals =
      Ok {| total_calories := float_lit 4200 1;
            total_protein := float_lit 160 1;
            total_carbs := float_lit 620 1;
            total_fat := float_lit 104 1;
            total_fiber := float_lit 110 1 |} /\
    build_nutrition_summary items = Ok (lit
"Nutrition breakdown:
2 x chapati: ~240 kcal (protein: 7.0 g, carbs: 36.0 g, fat: 7.4 g, fiber: 4.0 g)
1 x dal: ~180 kcal (protein: 9.0 g, carbs: 26.0 g, fat: 3.0 g, fiber: 7.0 g)


Total approximate values:
- Calories: 420 kcal
- Protein: 16.0 g
- Carbohydrates: 62.0 g
- Fat: 10.4 g
- Fiber: 11.0 g
").
Proof.
  do 2 eexists.
  split; [vm_compute; reflexivity|].
  split; [vm_compute; reflexivity|].
  cbv zeta. repeat split; vm_compute; reflexivity.
Qed.

(** *** The totals and the products of the items *)

Lemma int_to_float_inv (n : Z) (x : spec_float) :
  int_to_float n = Ok x -> x = Z2SF n.
Proof.
  unfold int_to_float. destruct (Z2SF n); intros H; congruence.
Qed.

Lemma py_str_inv (n : Z) (s : str) : py_str n = Ok s -> s = str_of_int n.
Proof.
  unfold py_str. destruct (int_str_bound <=? Z.abs n)%Z; congruence.
Qed.

(** Adding a product to a total adds the unrounded contribution. *)
Lemma py_mul_iadd (base v : num) (q : Z) (t t' : spec_float) :
  py_mul base q = Ok v -> py_iadd t v = Ok t' ->
  t' = SFadd prec emax t (unrounded base q).
Proof.
  destruct base as [n|x]; cbn [py_mul unrounded].
  - intros Hv. injection Hv as <-. cbn [py_iadd].
    destruct (int_to_float (n * q)) as [y|e] eqn:Hy; cbn [bind]; [|discriminate].
    intros H. apply int_to_float_inv in Hy. congruence.
  - destruct (int_to_float q) as [y|e] eqn:Hy; cbn [bind]; [|discriminate].
    intros Hv. injection Hv as <-. cbn [py_iadd].
    intros H. apply int_to_float_inv in Hy. congruence.
Qed.

(** A product is displayed as the unrounded contribution with one decimal. *)
Lemma py_mul_format (base v : num) (q : Z) (s : str) :
  py_mul base q = Ok v -> format_1f v = Ok s ->
  s = fmt_1f (unrounded base q).
Proof.
  destruct base as [n|x]; cbn [py_mul unrounded].
  - intros Hv. injection Hv as <-. cbn [format_1f].
    destruct (int_to_float (n * q)) as [y|e] eqn:Hy; cbn [bind]; [|discriminate].
    intros H. apply int_to_float_inv in Hy. congruence.
  - destruct (int_to_float q) as [y|e] eqn:Hy; cbn [bind]; [|discriminate].
    intros Hv. injection Hv as <-. cbn [format_1f].
    intros H. apply int_to_float_inv in Hy. congruence.
Qed.

Lemma py_mul_round (base v : num) (q k : Z) :
  py_mul base q = Ok v -> py_round v = Ok k -> shown_kcal base q k.
Proof.
  destruct base as [n|x]; cbn [py_mul shown_kcal unrounded].
  - intros Hv. injection Hv as <-. cbn [py_round]. congruence.
  - destruct (int_to_float q) as [y|e] eqn:Hy; cbn [bind]; [|discriminate].
    intros Hv. injection Hv as <-. cbn [py_round].
    apply int_to_float_inv in Hy. congruence.
Qed.

(** One turn of the loop adds to each of the five totals the unrounded
    contribution of the item, and appends the line of the item. *)
Lemma summary_step_unrounded (item : MatchedItem) (t t' : Totals)
  (ls ls' : list str) :
  summary_step (t, ls) item = Ok (t', ls') ->
  let add field total :=
    SFadd prec emax (total t) (unrounded (field (data item)) (quantity item)) in
  t' = {| total_calories := add calories total_calories;
          total_protein := add protein total_protein;
          total_carbs := add carbs total_carbs;
          total_fat := add fat total_fat;
          total_fiber := add fiber total_fiber |} /\
  exists line, ls' = ls ++ [line] /\ shown_line item line.
Proof.
  intros H. cbv zeta. unfold summary_step, item_values in H.
  destruct (py_mul (calories (data item)) (quantity item)) as [vc|] eqn:Mc;
    [|discriminate].
  destruct (py_mul (protein (data item)) (quantity item)) as [vp|] eqn:Mp;
    [|discriminate].
  destruct (py_mul (carbs (data item)) (quantity item)) as [vcb|] eqn:Mcb;
    [|discriminate].
  destruct (py_mul (fat (data item)) (quantity item)) as [vf|] eqn:Mf;
    [|discriminate].
  destruct (py_mul (fiber (data item)) (quantity item)) as [vfb|] eqn:Mfb;
    [|discriminate].
  cbn [bind] in H. unfold add_totals in H.
  cbn [v_cals v_protein v_carbs v_fat v_fiber] in H.
  destruct (py_iadd (total_calories t) vc) as [tc|] eqn:Ac; [|discriminate].
  destruct (py_iadd (total_protein t) vp) as [tp|] eqn:Ap; [|discriminate].
  destruct (py_iadd (total_carbs t) vcb) as [tcb|] eqn:Acb; [|discriminate].
  destruct (py_iadd (total_fat t) vf) as [tf|] eqn:Af; [|discriminate].
  destruct (py_iadd (total_fiber t) vfb) as [tfb|] eqn:Afb; [|discriminate].
  cbn [bind] in H. unfold item_line in H.
  cbn [v_cals v_protein v_carbs v_fat v_fiber] in H.
  destruct (py_str (quantity item)) as [sq|] eqn:Sq; [|discriminate].
  cbn [bind] in H.
  destruct (py_round vc) as [k|] eqn:Rk; [|discriminate].
  cbn [bind] in H.
  destruct (py_str k) as [sk|] eqn:Sk; [|discriminate].
  cbn [bind] in H.
  destruct (format_1f vp) as [sp|] eqn:Fp; [|discriminate].
  destruct (format_1f vcb) as [scb|] eqn:Fcb; [|discriminate].
  destruct (format_1f vf) as [sf|] eqn:Ff; [|discriminate].
  destruct (format_1f vfb) as [sfb|] eqn:Ffb; [|discriminate].
  cbn [bind] in H. injection H as <- <-. split.
  - now rewrite (py_mul_iadd _ _ _ _ _ Mc Ac), (py_mul_iadd _ _ _ _ _ Mp Ap),
      (py_mul_iadd _ _ _ _ _ Mcb Acb), (py_mul_iadd _ _ _ _ _ Mf Af),
      (py_mul_iadd _ _ _ _ _ Mfb Afb).
  - eexists. split; [reflexivity|].
    unfold shown_line. cbv zeta. exists k.
    split; [exact (py_mul_round _ _ _ _ Mc Rk)|].
    rewrite (py_str_inv _ _ Sq), (py_str_inv _ _ Sk),
      (py_mul_format _ _ _ _ Mp Fp), (py_mul_format _ _ _ _ Mcb Fcb),
      (py_mul_format _ _ _ _ Mf Ff), (py_mul_format _ _ _ _ Mfb Ffb).
    reflexivity.
Qed.

Lemma summary_loop_unrounded (food_items : list MatchedItem) :
  forall (t t' : Totals) (ls ls' : list str),
    summary_loop food_items (t, ls) = Ok (t', ls') ->
    let sum field total :=
      fold_left (fun x item =>
                   SFadd prec emax x
                     (unrounded (field (data item)) (quantity item)))
                food_items (total t) in
    t' = {| total_calories := sum calories total_calories;
            total_protein := sum protein total_protein;
            total_carbs := sum carbs total_carbs;
            total_fat := sum fat total_fat;
            total_fiber := sum fiber total_fiber |} /\
    exists new, ls' = ls ++ new /\ Forall2 shown_line food_items new.
Proof.
  induction food_items as [|item rest IH]; intros t t' ls ls' H; cbv zeta.
  - cbn in H. injection H as <- <-. cbn [fold_left]. split.
    + now destruct t.
    + exists []. rewrite app_nil_r. split; [reflexivity|constructor].
  - cbn [summary_loop] in H.
    destruct (summary_step (t, ls) item) as [[t1 l1]|] eqn:Hstep;
      [|discriminate].
    cbn [bind] in H.
    destruct (summary_step_unrounded item t t1 ls l1 Hstep)
      as (Ht1 & line & Hl1 & Hline).
    destruct (IH t1 t' l1 ls' H) as (Ht' & new & Hnew & F).
    cbv zeta in Ht1, Ht'. split.
    + rewrite Ht'. cbn [fold_left]. rewrite Ht1. reflexivity.
    + exists (line :: new). split.
      * rewrite Hnew, Hl1, <- app_assoc. reflexivity.
      * now constructor.
Qed.

(** *** The layout of the totals block *)

Lemma split_lines_line (a : str) :
  no_newline a ->
  forall cur rest,
    split_lines cur (a ++ 10%N :: rest) = (cur ++ a) :: split_lines [] rest.
Proof.
  induction 1 as [|c a Hc _ IH]; intros cur rest; cbn [app split_lines].
  - now rewrite N.eqb_refl, app_nil_r.
  - apply N.eqb_neq in Hc. rewrite Hc, IH, <- app_assoc. reflexivity.
Qed.

Lemma split_lines_end (a : str) :
  no_newline a -> forall cur, split_lines cur a = [cur ++ a].
Proof.
  induction 1 as [|c a Hc _ IH]; intros cur; cbn [split_lines].
  - now rewrite app_nil_r.
  - apply N.eqb_neq in Hc. rewrite Hc, IH, <- app_assoc. reflexivity.
Qed.

Lemma split_lines_field (p x s rest : str) :
  no_newline p -> no_newline x -> no_newline s ->
  split_lines [] (p ++ x ++ s ++ 10%N :: rest)
  = (p ++ x ++ s) :: split_lines [] rest.
Proof.
  intros Hp Hx Hs.
  replace (p ++ x ++ s ++ 10%N :: rest) with ((p ++ x ++ s) ++ 10%N :: rest)
    by (now rewrite <- !app_assoc).
  apply (split_lines_line (p ++ x ++ s)).
  unfold no_newline. rewrite !Forall_app. now repeat split.
Qed.

(** The characters of a decimal numeral. *)
Lemma uint_no_newline (d : Decimal.uint) :
  no_newline (lit (NilEmpty.string_of_uint d)).
Proof.
  induction d; cbn [NilEmpty.string_of_uint]; try (constructor);
    first [ discriminate | assumption | idtac ].
Qed.

Lemma str_of_int_no_newline (n : Z) : no_newline (str_of_int n).
Proof.
  unfold str_of_int, NilZero.string_of_int.
  destruct (Z.to_int n) as [d|d]; unfold NilZero.string_of_uint.
  - destruct d; try apply uint_no_newline. repeat constructor. discriminate.
  - change (lit (String "-" ?s)) with (45%N :: lit s).
    constructor; [discriminate|].
    destruct d; try apply uint_no_newline. repeat constructor. discriminate.
Qed.

Lemma lit_no_newline_literals :
  no_newline (lit "nan") /\ no_newline (lit "inf") /\ no_newline (lit "-inf") /\
  no_newline (lit "0.0") /\ no_newline (lit "-0.0") /\ no_newline (lit "-") /\
  no_newline (lit ".").
Proof. repeat split; repeat constructor; discriminate. Qed.

Lemma fmt_1f_no_newline (x : spec_float) : no_newline (fmt_1f x).
Proof.
  destruct lit_no_newline_literals as (Hnan & Hinf & Hninf & Hz & Hnz & Hm & Hdot).
  destruct x as [s|s| |s m e]; cbn [fmt_1f]; try destruct s; try assumption.
  - unfold no_newline, tenths. rewrite !Forall_app.
    repeat split; try assumption; apply str_of_int_no_newline.
  - unfold no_newline, tenths. rewrite !Forall_app.
    repeat split; try assumption; try apply str_of_int_no_newline.
    constructor.
Qed.

Lemma dedent_totals_block (totals : Totals) (block : str) :
  totals_block totals = Ok block ->
  exists c, round_float (total_calories totals) = Ok c /\
            dedent block = totals_text c totals.
Proof.
  unfold totals_block. intros H.
  destruct (round_float (total_calories totals)) as [c|e]; [|discriminate].
  cbn [bind] in H.
  destruct (py_str c) as [kcal|e] eqn:Hk; [|discriminate].
  cbn [bind] in H. apply py_str_inv in Hk. subst kcal.
  exists c. split; [reflexivity|].
  assert (Hb : block =
    10%N :: lit "    Total approximate values:" ++ 10%N ::
    lit "    - Calories: " ++ str_of_int c ++ lit " kcal" ++ 10%N ::
    lit "    - Protein: " ++ fmt_1f (total_protein totals) ++ lit " g" ++ 10%N ::
    lit "    - Carbohydrates: " ++ fmt_1f (total_carbs totals) ++ lit " g" ++ 10%N ::
    lit "    - Fat: " ++ fmt_1f (total_fat totals) ++ lit " g" ++ 10%N ::
    lit "    - Fiber: " ++ fmt_1f (total_fiber totals) ++ lit " g" ++ 10%N ::
    lit "    ").
  { injection H as <-. reflexivity. }
  clear H. subst block. unfold dedent.
  change (10%N :: lit "    Total approximate values:" ++ ?r)
    with ([] ++ 10%N :: lit "    Total approximate values:" ++ r).
  rewrite (split_lines_line []) by constructor.
  rewrite (split_lines_line (lit "    Total approximate values:"))
    by (repeat constructor; discriminate).
  rewrite !split_lines_field;
    try apply str_of_int_no_newline; try apply fmt_1f_no_newline;
    try (repeat constructor; discriminate).
  rewrite split_lines_end by (repeat constructor; discriminate).
  unfold totals_text.
  cbn -[str_of_int fmt_1f]. rewrite <- !app_assoc. reflexivity.
Qed.

(** C3. Whenever the aggregator returns a summary of a sequence of items,
    each of the five totals it displays is the sum of the unrounded
    contributions of the items, base value times quantity, and the line of
    each item displays these same contributions: rounding happens on display
    only.  Three items of quantity 2 that contribute 0.34 g of protein each
    are displayed with 0.3 g each and with a total of 1.0 g, where the
    displayed values add up to 0.9 g. *)
Theorem totals_from_unrounded_values :
  (forall (food_items : list MatchedItem) (s : str),
     food_items <> [] ->
     build_nutrition_summary food_items = Ok s ->
     exists lines c,
       Forall2 shown_line food_items lines /\
       round_float (total_of calories food_items) = Ok c /\
       s = lit "Nutrition breakdown:" ++ nl ++ join nl lines ++ nl ++ nl
           ++ totals_text c (unrounded_totals food_items)) /\
  unrounded (protein (data bite)) (quantity bite) = float_lit 34 2 /\
  fmt_1f (float_lit 34 2) = lit "0.3" /\
  build_nutrition_summary [bite; bite; bite] = Ok three_bites_summary /\
  (let shown := float_lit 3 1 in
   fmt_1f (SFadd prec emax
             (SFadd prec emax (SFadd prec emax (S754_zero false) shown) shown)
             shown) = lit "0.9").
Proof.
  split; [|repeat (split; [vm_compute; reflexivity|]); vm_compute; reflexivity].
  intros food_items s Hne H.
  destruct food_items as [|item rest]; [congruence|].
  cbn [build_nutrition_summary] in H.
  destruct (summary_loop (item :: rest) (zero_totals, [])) as [[t ls]|e] eqn:Hl;
    [|discriminate].
  cbn [bind] in H.
  destruct (totals_block t) as [block|e] eqn:Hb; [|discriminate].
  cbn [bind] in H.
  destruct (dedent_totals_block t block Hb) as (c & Hc & Hd).
  destruct (summary_loop_unrounded _ _ _ _ _ Hl) as (Ht & new & E & F).
  cbn [app] in E. subst new.
  assert (Ht' : t = unrounded_totals (item :: rest)) by exact Ht.
  clear Ht. subst t.
  exists ls, c. split; [exact F|]. split; [exact Hc|].
  rewrite <- Hd. congruence.
Qed.

Lemma totals_from_unrounded_values_witness :
  exists lines c,
    Forall2 shown_line [bite; bite; bite] lines /\
    round_float (total_of calories [bite; bite; bite]) = Ok c /\
    three_bites_summary =
      lit "Nutrition breakdown:" ++ nl ++ join nl lines ++ nl ++ nl
      ++ totals_text c (unrounded_totals [bite; bite; bite]).
Proof.
  apply (proj1 totals_from_unrounded_values [bite; bite; bite]).
  - discriminate.
  - vm_compute. reflexivity.
Defined.

(** C6. For the empty sequence the aggregator returns the fixed message
    that no known food was detected.  The message is not empty and is no
    breakdown, while every summary of a sequence that has an item opens with
    the heading of the breakdown. *)
Theorem empty_sequence_message :
  build_nutrition_summary [] =
    Ok (lit "I could not detect any known foods from the text.") /\
  lit "I could not detect any known foods from the text." <> [] /\
  contains (lit "Nutrition breakdown:")
    (lit "I could not detect any known foods from the text.") = false /\
  contains (lit "Total approximate values:")
    (lit "I could not detect any known foods from the text.") = false /\
  forall (item : MatchedItem) (rest : list MatchedItem) (s : str),
    build_nutrition_summary (item :: rest) = Ok s ->
    starts_with (lit "Nutrition breakdown:") s = true.
Proof.
  split; [reflexivity|].
  split; [discriminate|].
  split; [vm_compute; reflexivity|].
  split; [vm_compute; reflexivity|].
  intros item rest s H.
  cbn [build_nutrition_summary] in H.
  destruct (summary_loop (item :: rest) (zero_totals, [])) as [[t ls]|e];
    [|discriminate].
  cbn [bind] in H.
  destruct (totals_block t) as [block|e]; [|discriminate].
  cbn [bind] in H.
  replace s with (lit "Nutrition breakdown:"
                  ++ (nl ++ join nl ls ++ nl ++ nl ++ dedent block))
    by congruence.
  apply starts_with_app.
Qed.

Lemma empty_sequence_message_witness :
  starts_with (lit "Nutrition breakdown:") three_snacks_summary = true.
Proof.
  apply (proj2 (proj2 (proj2 (proj2 empty_sequence_message)))
           snack [snack; snack]).
  vm_compute. reflexivity.
Defined.

Lemma summary_step_notes (a b : MatchedItem) (st : Totals * list str) :
  same_but_notes a b -> summary_step st a = summary_step st b.
Proof.
  intros (Hn & Hq & Hc & Hp & Hcb & Hf & Hfb).
  unfold summary_step, item_values, item_line.
  now rewrite Hn, Hq, Hc, Hp, Hcb, Hf, Hfb.
Qed.

Lemma summary_loop_notes (xs ys : list MatchedItem) :
  Forall2 same_but_notes xs ys ->
  forall st, summary_loop xs st = summary_loop ys st.
Proof.
  induction 1 as [|a b xs ys Hab _ IH]; intros st; [reflexivity|].
  cbn [summary_loop]. rewrite (summary_step_notes a b st Hab).
  destruct (summary_step st b) as [st'|e]; cbn [bind]; [apply IH|reflexivity].
Qed.

(** C10. The summary does not depend on the notes: two sequences of items
    that agree on names, quantities and the five numbers of each record get
    the same result from the aggregator. *)
Theorem summary_ignores_notes (xs ys : list MatchedItem) :
  Forall2 same_but_notes xs ys ->
  build_nutrition_summary xs = build_nutrition_summary ys.
Proof.
  intros H. pose proof (summary_loop_notes xs ys H (zero_totals, [])) as E.
  destruct H as [|a b xs ys Hab Hrest]; [reflexivity|].
  cbn [build_nutrition_summary]. now rewrite E.
Qed.

Lemma summary_ignores_notes_witness :
  build_nutrition_summary [snack; noted_snack] =
  build_nutrition_summary [noted_snack; snack].
Proof.
  apply (summary_ignores_notes [snack; noted_snack] [noted_snack; snack]).
  repeat constructor.
Defined.

(** ** Magnitude of binary64 values *)

Section FloatBounds.
Local Open Scope Z_scope.

Lemma below_mono (K K' : Z) (x : spec_float) : K <= K' -> below K x -> below K' x.
Proof. destruct x as [| | |[] m e]; simpl; auto; lia. Qed.

Lemma digits2_log2 (m : positive) : Zpos (digits2_pos m) = Z.log2 (Zpos m) + 1.
Proof.
  assert (H : forall p, digits2_pos p = Pos.size p)
    by (induction p; simpl; congruence).
  destruct m; simpl; rewrite ?H; lia.
Qed.

Lemma Zdigits2_log2 (m : Z) : 0 < m -> Zdigits2 m = Z.log2 m + 1.
Proof. destruct m; try lia. intros _. apply digits2_log2. Qed.

Lemma Zdigits2_shiftr (m n : Z) :
  0 <= m -> 0 <= n -> Zdigits2 (Z.shiftr m n) <= Z.max 0 (Zdigits2 m - n).
Proof.
  intros Hm Hn.
  destruct (Z.eq_dec (Z.shiftr m n) 0) as [E|E]; [rewrite E; simpl; lia|].
  assert (0 <= Z.shiftr m n) by (apply Z.shiftr_nonneg; lia).
  assert (0 < m).
  { destruct (Z.eq_dec m 0); [subst; rewrite Z.shiftr_0_l in E|]; lia. }
  rewrite !Zdigits2_log2 by lia.
  rewrite Z.log2_shiftr by lia.
  destruct (Z.lt_ge_cases (Z.log2 m) n) as [Hlt|Hge]; [|lia].
  exfalso. apply E. apply Z.shiftr_eq_0; lia.
Qed.

Lemma Zdigits2_succ (m m' : Z) :
  0 <= m -> m <= m' <= m + 1 -> Zdigits2 m' <= Zdigits2 m + 1.
Proof.
  intros Hm Hm'.
  destruct (Z.eq_dec m 0) as [->|Hne].
  - assert (m' = 0 \/ m' = 1) as [->| ->] by lia; simpl; lia.
  - assert (m' = m \/ m' = Z.succ m) as [->| ->] by lia; [lia|].
    rewrite !Zdigits2_log2 by lia.
    pose proof (Z.log2_succ_le m). lia.
Qed.

Lemma Zdigits2_add (a b : Z) :
  0 < a -> 0 < b -> Zdigits2 (a + b) <= Z.max (Zdigits2 a) (Zdigits2 b) + 1.
Proof.
  intros Ha Hb. rewrite !Zdigits2_log2 by lia.
  assert (Z.log2 (a + b) <= Z.log2 (2 * Z.max a b))
    by (apply Z.log2_le_mono; lia).
  rewrite Z.log2_double in H by lia.
  destruct (Z.max_spec a b) as [[_ E]|[_ E]]; rewrite E in H; lia.
Qed.

Lemma shr_1_m (mrs : shr_record) :
  0 <= shr_m mrs -> shr_m (shr_1 mrs) = Z.shiftr (shr_m mrs) 1.
Proof.
  destruct mrs as [m r s]. cbn [shr_m]. intros Hm.
  rewrite <- Z.div2_spec.
  destruct m as [|[p|p|]|p]; try lia; reflexivity.
Qed.

Lemma iter_shr_1_m (p : positive) :
  forall mrs, 0 <= shr_m mrs ->
    shr_m (iter_pos shr_1 p mrs) = Z.shiftr (shr_m mrs) (Zpos p).
Proof.
  assert (Hpos : forall a n, 0 <= a -> 0 <= Z.shiftr a n)
    by (intros; apply Z.shiftr_nonneg; lia).
  induction p as [p IH|p IH|]; intros mrs Hm; simpl iter_pos.
  - assert (H1 : 0 <= shr_m (shr_1 mrs)) by (rewrite shr_1_m; auto).
    assert (H2 : 0 <= shr_m (iter_pos shr_1 p (shr_1 mrs)))
      by (rewrite IH; auto).
    rewrite (IH _ H2), (IH _ H1), (shr_1_m _ Hm).
    rewrite !Z.shiftr_shiftr by lia. f_equal. lia.
  - assert (H2 : 0 <= shr_m (iter_pos shr_1 p mrs)) by (rewrite IH; auto).
    rewrite (IH _ H2), (IH _ Hm).
    rewrite !Z.shiftr_shiftr by lia. f_equal. lia.
  - now apply shr_1_m.
Qed.

Lemma shr_spec (mrs : shr_record) (e n : Z) :
  0 <= shr_m mrs ->
  shr_m (fst (shr mrs e n)) = Z.shiftr (shr_m mrs) (Z.max 0 n) /\
  snd (shr mrs e n) = e + Z.max 0 n.
Proof.
  intros Hm. destruct n as [|p|p]; simpl shr; cbn [fst snd].
  - rewrite Z.shiftr_0_r. split; lia.
  - rewrite iter_shr_1_m by assumption. split; [f_equal|]; lia.
  - rewrite Z.shiftr_0_r. split; lia.
Qed.

Lemma round_nearest_even_bounds (m : Z) (l : location) :
  m <= round_nearest_even m l <= m + 1.
Proof.
  destruct l as [|[]]; simpl; try lia.
  destruct (Z.even m); lia.
Qed.

Lemma shl_align_spec (m : positive) (e e' : Z) :
  Zpos (digits2_pos (fst (shl_align m e e'))) + snd (shl_align m e e')
    = Zpos (digits2_pos m) + e /\
  snd (shl_align m e e') = Z.min e e'.
Proof.
  unfold shl_align. destruct (e' - e) as [|d|d] eqn:Hd; cbn [fst snd];
    try (split; lia).
  assert (H : Zpos (digits2_pos (Pos.iter xO m d)) = Zpos (digits2_pos m) + Zpos d).
  { clear Hd. induction d using Pos.peano_ind.
    - simpl. lia.
    - rewrite Pos.iter_succ. simpl digits2_pos. lia. }
  split; lia.
Qed.

Lemma fexp_eq (x : Z) : fexp prec emax x = Z.max (x - 53) (-1074).
Proof. reflexivity. Qed.

(** Rounding a positive value below [2^K] gives a float that is finite, and
    below [2^(K+1)]. *)
Lemma binary_round_below (m : positive) (e K : Z) :
  0 <= K <= 1023 ->
  Zpos (digits2_pos m) + e <= K ->
  below (K + 1) (binary_round prec emax false m e).
Proof.
  intros HK Hmu. unfold binary_round.
  destruct (shl_align_spec m e (fexp prec emax (Zpos (digits2_pos m) + e)))
    as [Hd0 He0].
  destruct (shl_align m e (fexp prec emax (Zpos (digits2_pos m) + e)))
    as [m0 e0]. cbn [fst snd] in Hd0, He0.
  unfold binary_round_aux, shr_fexp.
  change (shr_record_of_loc (Zpos m0) loc_Exact)
    with (Build_shr_record (Zpos m0) false false).
  set (n1 := fexp prec emax (Zdigits2 (Zpos m0) + e0) - e0).
  destruct (shr_spec (Build_shr_record (Zpos m0) false false) e0 n1)
    as [Hm1 He1]; [simpl; lia|].
  destruct (shr (Build_shr_record (Zpos m0) false false) e0 n1) as [mrs1 e1].
  cbn [fst snd shr_m] in Hm1, He1.
  set (m2 := round_nearest_even (shr_m mrs1) (loc_of_shr_record mrs1)).
  pose proof (round_nearest_even_bounds (shr_m mrs1) (loc_of_shr_record mrs1))
    as Hm2. fold m2 in Hm2.
  change (shr_record_of_loc m2 loc_Exact) with (Build_shr_record m2 false false).
  set (n2 := fexp prec emax (Zdigits2 m2 + e1) - e1).
  assert (Hm1pos : 0 <= shr_m mrs1)
    by (rewrite Hm1; apply Z.shiftr_nonneg; lia).
  destruct (shr_spec (Build_shr_record m2 false false) e1 n2)
    as [Hm3 He3]; [simpl; lia|].
  destruct (shr (Build_shr_record m2 false false) e1 n2) as [mrs3 e3].
  cbn [fst snd shr_m] in Hm3, He3.
  pose proof (Zdigits2_shiftr (Zpos m0) (Z.max 0 n1) ltac:(lia) ltac:(lia)) as D1.
  rewrite <- Hm1 in D1.
  pose proof (Zdigits2_succ (shr_m mrs1) m2 Hm1pos Hm2) as D2.
  pose proof (Zdigits2_shiftr m2 (Z.max 0 n2) ltac:(lia) ltac:(lia)) as D3.
  rewrite <- Hm3 in D3.
  assert (Hm3pos : 0 <= shr_m mrs3)
    by (rewrite Hm3; apply Z.shiftr_nonneg; lia).
  unfold n1, n2 in *. rewrite !fexp_eq in *.
  change (Zdigits2 (Zpos m0)) with (Zpos (digits2_pos m0)) in *.
  destruct (shr_m mrs3) as [|m3|m3] eqn:E3; [exact I| |lia].
  change (emax - prec) with 971.
  change (Zdigits2 (Zpos m3)) with (Zpos (digits2_pos m3)) in D3.
  clear Hm1 Hm3 Hm2 E3. clearbody m2. clear n1 n2.
  assert (Hfinite : e3 <= 971 /\ Z.pos (digits2_pos m3) + e3 <= K + 1).
  { set (x1 := Zdigits2 (shr_m mrs1)) in *. clearbody x1.
    set (x2 := Zdigits2 m2) in *. clearbody x2.
    set (d3 := Z.pos (digits2_pos m3)) in *.
    assert (1 <= d3) by (unfold d3; lia). clearbody d3.
    set (d0 := Z.pos (digits2_pos m0)) in *.
    assert (1 <= d0) by (unfold d0; lia). clearbody d0.
    set (d := Z.pos (digits2_pos m)) in *.
    assert (1 <= d) by (unfold d; lia). clearbody d.
    lia. }
  destruct Hfinite as [Hle Hbound].
  apply Z.leb_le in Hle. rewrite Hle. exact Hbound.
Qed.


Lemma Z2SF_below (n K : Z) :
  0 <= K <= 1023 -> 0 <= n < 2 ^ K -> below (K + 1) (Z2SF n).
Proof.
  intros HK Hn. unfold Z2SF, binary_normalize.
  destruct n as [|m|m]; [exact I| |lia].
  apply binary_round_below; [assumption|].
  rewrite digits2_log2.
  assert (Z.log2 (Zpos m) < K) by (apply Z.log2_lt_pow2; lia).
  lia.
Qed.

Lemma SFadd_below (K : Z) (x y : spec_float) :
  0 <= K <= 1022 -> below K x -> below K y ->
  below (K + 2) (SFadd prec emax x y).
Proof.
  intros HK Hx Hy.
  destruct x as [sx| | |[] mx ex]; try contradiction;
  destruct y as [sy| | |[] my ey]; try contradiction.
  - destruct sx, sy; exact I.
  - cbn [below SFadd] in *. lia.
  - cbn [below SFadd] in *. lia.
  - cbn [below] in Hx, Hy. cbn [SFadd cond_Zopp].
    destruct (shl_align_spec mx ex (Z.min ex ey)) as [Hdx Hex].
    destruct (shl_align_spec my ey (Z.min ex ey)) as [Hdy Hey].
    destruct (shl_align mx ex (Z.min ex ey)) as [mx' ex'].
    destruct (shl_align my ey (Z.min ex ey)) as [my' ey'].
    cbn [fst snd] in *.
    change (Zpos mx' + Zpos my') with (Zpos (mx' + my')).
    cbn [binary_normalize].
    replace (K + 2) with ((K + 1) + 1) by lia.
    apply binary_round_below; [lia|].
    pose proof (Zdigits2_add (Zpos mx') (Zpos my') ltac:(lia) ltac:(lia)) as D.
    change (Zpos mx' + Zpos my') with (Zpos (mx' + my')) in D.
    cbn [Zdigits2] in D. change (IntDef.Z.min ex ey) with (Z.min ex ey). lia.
Qed.

(** An [int] below [2^1023] converts to a float. *)
Lemma int_to_float_ok (n K : Z) :
  0 <= K <= 1023 -> 0 <= n < 2 ^ K ->
  exists x, int_to_float n = Ok x /\ below (K + 1) x.
Proof.
  intros HK Hn. pose proof (Z2SF_below n K HK Hn) as Hb.
  unfold int_to_float. destruct (Z2SF n) as [s| | |s m e];
    try contradiction; eauto.
Qed.

(** *** The aggregator on small quantities *)

Lemma small_product (n q : Z) :
  0 <= n <= 1000 -> 0 <= q < 2 ^ 900 -> 0 <= n * q < 2 ^ 910.
Proof.
  intros Hn Hq.
  replace (2 ^ 910) with (1024 * 2 ^ 900)
    by (change 1024 with (2 ^ 10); rewrite <- Z.pow_add_r by lia; reflexivity).
  nia.
Qed.

Lemma py_mul_small (v : num) (q : Z) :
  small_base v -> 0 <= q < 2 ^ 900 ->
  exists v', py_mul v q = Ok v' /\ small_value v'.
Proof.
  intros Hv Hq. destruct v as [n|x]; cbn [py_mul small_base] in *.
  - exists (PyInt (n * q)). split; [reflexivity|now apply small_product].
  - destruct (int_to_float_ok q 900 ltac:(lia) Hq) as (y & Hy & _).
    rewrite Hy. cbn [bind]. eexists. split; [reflexivity|exact I].
Qed.

Lemma py_iadd_small (t : spec_float) (v : num) :
  small_value v -> exists t', py_iadd t v = Ok t'.
Proof.
  intros Hv. destruct v as [n|x]; cbn [py_iadd small_value] in *.
  - destruct (int_to_float_ok n 910 ltac:(lia) Hv) as (y & Hy & _).
    rewrite Hy. cbn [bind]. eauto.
  - eauto.
Qed.

Lemma format_1f_small (v : num) :
  small_value v -> exists s, format_1f v = Ok s.
Proof.
  intros Hv. destruct v as [n|x]; cbn [format_1f small_value] in *.
  - destruct (int_to_float_ok n 910 ltac:(lia) Hv) as (y & Hy & _).
    rewrite Hy. cbn [bind]. eauto.
  - eauto.
Qed.

Lemma positive_below_pow2 (m : positive) : Zpos m < 2 ^ Zpos (digits2_pos m).
Proof.
  rewrite digits2_log2.
  pose proof (Z.log2_spec (Zpos m) ltac:(lia)) as [_ H].
  now rewrite <- Z.add_1_r in H.
Qed.

(** The nearest integer of a float below [2^K] is at most [2^K]. *)
Lemma round_scaled_below (m : positive) (e K : Z) :
  0 <= K -> Zpos (digits2_pos m) + e <= K ->
  0 <= round_scaled (Zpos m) e <= 2 ^ K.
Proof.
  intros HK Hd. pose proof (positive_below_pow2 m) as Hm.
  set (d := Zpos (digits2_pos m)) in *.
  assert (0 < d) by (unfold d; lia). clearbody d.
  unfold round_scaled. destruct (Z.leb_spec 0 e) as [He|He].
  - assert (0 < 2 ^ e) by (apply Z.pow_pos_nonneg; lia).
    assert (2 ^ d * 2 ^ e <= 2 ^ K).
    { rewrite <- Z.pow_add_r by lia. apply Z.pow_le_mono_r; lia. }
    nia.
  - set (D := 2 ^ (- e)).
    assert (HD : 0 < D) by (apply Z.pow_pos_nonneg; lia).
    assert (Hq : 0 <= Zpos m / D) by (apply Z.div_pos; lia).
    assert (Hq1 : Zpos m / D + 1 <= 2 ^ K).
    { assert (0 < 2 ^ K) by (apply Z.pow_pos_nonneg; lia).
      destruct (Z.le_gt_cases 0 (d + e)) as [Hde|Hde].
      - assert (Zpos m / D < 2 ^ (d + e)).
        { apply Z.div_lt_upper_bound; [exact HD|].
          unfold D. rewrite <- Z.pow_add_r by lia.
          now replace (- e + (d + e)) with d by lia. }
        assert (2 ^ (d + e) <= 2 ^ K) by (apply Z.pow_le_mono_r; lia).
        lia.
      - assert (2 ^ d <= D) by (apply Z.pow_le_mono_r; lia).
        rewrite Z.div_small by lia. lia. }
    unfold round_half_even. fold D.
    destruct (2 * (Zpos m mod D) ?= D); [destruct (Z.even (Zpos m / D))| |];
      lia.
Qed.

Lemma round_float_below (K : Z) (x : spec_float) :
  0 <= K -> below K x -> exists z, round_float x = Ok z /\ 0 <= z <= 2 ^ K.
Proof.
  intros HK Hb. destruct x as [s| | |[] m e]; cbn [below] in Hb;
    try contradiction.
  - exists 0. split; [reflexivity|].
    assert (0 < 2 ^ K) by (apply Z.pow_pos_nonneg; lia). lia.
  - eexists. split; [reflexivity|]. now apply round_scaled_below.
Qed.

Lemma int_str_bound_large : 2 ^ 1024 <= int_str_bound.
Proof. vm_compute. discriminate. Qed.

(** An [int] below [2^1024] has its numeral. *)
Lemma py_str_ok (n : Z) :
  0 <= n < 2 ^ 1024 -> py_str n = Ok (str_of_int n).
Proof.
  intros Hn. unfold py_str. pose proof int_str_bound_large as Hb.
  destruct (Z.leb_spec int_str_bound (Z.abs n)) as [Hle|_]; [|reflexivity].
  rewrite Z.abs_eq in Hle by lia. set (b := 2 ^ 1024) in *. lia.
Qed.

Lemma pow2_le_1024 (K : Z) : 0 <= K <= 1023 -> 2 ^ K < 2 ^ 1024.
Proof. intros HK. apply Z.pow_lt_mono_r; lia. Qed.

(** One turn of the loop on a small item: it returns, and the total of the
    calories stays finite. *)
Lemma summary_step_small (item : MatchedItem) (totals : Totals)
  (lines : list str) (K : Z) :
  small_item item ->
  911 <= K <= 1022 ->
  below K (total_calories totals) ->
  exists totals' lines',
    summary_step (totals, lines) item = Ok (totals', lines') /\
    below (K + 2) (total_calories totals').
Proof.
  intros (Hq & (c & Hc & Hcb) & Hp & Hcarb & Hf & Hfb) HK Ht.
  unfold summary_step, item_values. rewrite Hc. cbn [py_mul bind].
  destruct (py_mul_small _ _ Hp Hq) as (vp & -> & Svp).
  destruct (py_mul_small _ _ Hcarb Hq) as (vc & -> & Svc).
  destruct (py_mul_small _ _ Hf Hq) as (vf & -> & Svf).
  destruct (py_mul_small _ _ Hfb Hq) as (vfb & -> & Svfb).
  cbn [bind]. unfold add_totals.
  cbn [v_cals v_protein v_carbs v_fat v_fiber py_iadd].
  pose proof (small_product c (quantity item) Hcb Hq) as Hcq.
  destruct (int_to_float_ok (c * quantity item) 910 ltac:(lia) Hcq)
    as (y & -> & Hy).
  cbn [bind].
  destruct (py_iadd_small (total_protein totals) vp Svp) as (tp & ->).
  destruct (py_iadd_small (total_carbs totals) vc Svc) as (tc & ->).
  destruct (py_iadd_small (total_fat totals) vf Svf) as (tf & ->).
  destruct (py_iadd_small (total_fiber totals) vfb Svfb) as (tfb & ->).
  cbn [bind]. unfold item_line.
  cbn [v_cals v_protein v_carbs v_fat v_fiber py_round].
  pose proof (pow2_le_1024 900 ltac:(lia)) as H900.
  pose proof (pow2_le_1024 910 ltac:(lia)) as H910.
  rewrite (py_str_ok (quantity item)) by lia. cbn [bind].
  rewrite (py_str_ok (c * quantity item)) by lia. cbn [bind].
  destruct (format_1f_small vp Svp) as (sp & ->).
  destruct (format_1f_small vc Svc) as (sc & ->).
  destruct (format_1f_small vf Svf) as (sf & ->).
  destruct (format_1f_small vfb Svfb) as (sfb & ->).
  cbn [bind]. do 2 eexists. split; [reflexivity|].
  cbn [total_calories].
  apply SFadd_below; [lia|assumption|].
  apply below_mono with 911; [lia|exact Hy].
Qed.

Lemma summary_loop_small (food_items : list MatchedItem) :
  forall (totals : Totals) (lines : list str) (K : Z),
    Forall small_item food_items ->
    911 <= K ->
    K + 2 * Z.of_nat (List.length food_items) <= 1023 ->
    below K (total_calories totals) ->
    exists totals' lines',
      summary_loop food_items (totals, lines) = Ok (totals', lines') /\
      below 1023 (total_calories totals').
Proof.
  induction food_items as [|item rest IH]; intros totals lines K Hs HK Hlen Ht.
  - exists totals, lines. split; [reflexivity|].
    apply below_mono with K; [cbn in Hlen; lia|assumption].
  - inversion Hs as [|? ? Hitem Hrest]; subst.
    cbn [List.length] in Hlen.
    destruct (summary_step_small item totals lines K Hitem ltac:(lia) Ht)
      as (t1 & l1 & E1 & B1).
    cbn [summary_loop]. rewrite E1. cbn [bind].
    apply (IH t1 l1 (K + 2)); [assumption|lia|lia|assumption].
Qed.

(** The aggregator returns a summary for every sequence of at most 50 small
    items. *)
Lemma build_nutrition_summary_small (food_items : list MatchedItem) :
  (List.length food_items <= 50)%nat ->
  Forall small_item food_items ->
  exists summary, build_nutrition_summary food_items = Ok summary.
Proof.
  intros Hlen Hs. destruct food_items as [|item rest]; [cbn; eauto|].
  destruct (summary_loop_small (item :: rest) zero_totals [] 911 Hs
              ltac:(lia) ltac:(lia) I) as (t & ls & E & B).
  cbn [build_nutrition_summary]. rewrite E. cbn [bind].
  unfold totals_block.
  destruct (round_float_below 1023 _ ltac:(lia) B) as (z & -> & Hz). cbn [bind].
  pose proof (pow2_le_1024 1023 ltac:(lia)) as H1023.
  rewrite (py_str_ok z) by lia. cbn [bind]. eauto.
Qed.

(** The records of the knowledge base are small. *)
Lemma FOOD_DATA_small : Forall (fun entry => small_record (snd entry)) FOOD_DATA.
Proof.
  unfold FOOD_DATA.
  repeat (apply Forall_cons;
          [unfold small_record; cbn [snd calories protein carbs fat fiber];
           repeat split; try (eexists; split; [reflexivity|]); cbn; lia|]).
  apply Forall_nil.
Qed.

End FloatBounds.

(** On what the matcher emits, the aggregator returns a summary as long as
    every quantity is below [2^900]. *)
Lemma summary_of_matched_items {U : UnicodeData}
  (text : str) (food_items : list MatchedItem) :
  analyze_food_text text = Ok food_items ->
  Forall (fun item => (quantity item < 2 ^ 900)%Z) food_items ->
  exists summary, build_nutrition_summary food_items = Ok summary.
Proof.
  intros H Hq.
  destruct (analyze_food_text_spec text food_items H) as (M & Q).
  assert (Hsub : forall item, In item food_items -> In (entry_of item) FOOD_DATA).
  { intros item Hin. apply (in_map entry_of) in Hin. rewrite M in Hin.
    apply filter_In in Hin. exact (proj1 Hin). }
  apply build_nutrition_summary_small.
  - rewrite <- (length_map entry_of), M.
    pose proof (filter_length_le (found (str_lower text)) FOOD_DATA) as Hle.
    change (List.length FOOD_DATA) with 15%nat in Hle. lia.
  - rewrite Forall_forall in *. intros item Hin. split.
    + split; [|now apply Hq].
      now apply (quantity_ok_nonneg (str_lower text)), Q.
    + pose proof FOOD_DATA_small as Hs. rewrite Forall_forall in Hs.
      apply (Hs (entry_of item)), Hsub, Hin.
Qed.

(** ** The chat handler *)

Section ChatFacts.
Context {U : UnicodeData}.

Lemma lstrip_blank (s : str) :
  Forall (fun c => is_space c = true) s -> lstrip s = [].
Proof.
  induction 1 as [|c s Hc _ IH]; simpl; [reflexivity|].
  now rewrite Hc.
Qed.

Lemma strip_blank (s : str) :
  Forall (fun c => is_space c = true) s -> strip s = [].
Proof.
  intros H. unfold strip. now rewrite (lstrip_blank s H).
Qed.

End ChatFacts.

(** C8. For the empty message the handler answers with status 200 and the
    reply that asks what was eaten, and the service is not called: the
    request causes no event.  The same holds for a message of white space
    only and for a request without message. *)
Theorem empty_message_reply {U : UnicodeData} (service : str -> result str) :
  chat service (Some []) =
    (Ok {| reply := lit "Please tell me what you ate so I can help.";
           status := 200 |}, []) /\
  forall message : option str,
    Forall (fun c => is_space c = true) (message_text message) ->
    chat service message =
      (Ok {| reply := lit "Please tell me what you ate so I can help.";
             status := 200 |}, []).
Proof.
  split; [reflexivity|].
  intros message H. unfold chat.
  now rewrite (strip_blank _ H).
Qed.

Lemma empty_message_reply_witness :
  chat (fun _ => Ok (lit "Great meal!")) (Some (lit "   ")) =
    (Ok {| reply := lit "Please tell me what you ate so I can help.";
           status := 200 |}, []).
Proof.
  apply (proj2 (empty_message_reply (fun _ => Ok (lit "Great meal!")))
           (Some (lit "   "))).
  vm_compute. repeat constructor.
Defined.

(** C7. When the call of the service raises, the handler answers with status
    200 and the fixed fallback reply, after the one call and one printed line
    for the operator.  No exception of the service leaves the handler: when
    an exception leaves it, it was raised before any call of the service, and
    the handler raises the same one whatever the service is. *)
Theorem service_error_is_absorbed {U : UnicodeData}
  (service : str -> result str) (message : option str) :
  (forall (food_items : list MatchedItem) (summary : str) (e : exn),
     let user_message := strip (message_text message) in
     user_message <> [] ->
     analyze_food_text user_message = Ok food_items ->
     build_nutrition_summary food_items = Ok summary ->
     service (build_prompt user_message summary) = Raise e ->
     chat service message =
       (Ok {| reply := lit "There was a problem talking to the AI server. Please try again later.";
              status := 200 |},
        [ GenerateContent (build_prompt user_message summary);
          Printed (lit "Error talking to Gemini: " ++ exc_msg e) ])) /\
  (forall e : exn,
     fst (chat service message) = Raise e ->
     forall other : str -> result str,
       chat other message = (Raise e, [])).
Proof.
  unfold chat.
  split.
  - intros food_items summary e Hne Ha Hb Hs.
    destruct (strip (message_text message)) as [|c um]; [congruence|].
    rewrite Ha, Hb. unfold ask_gemini. rewrite Hs. reflexivity.
  - intros e H other.
    destruct (strip (message_text message)) as [|c um] eqn:Hum;
      [discriminate|].
    destruct (analyze_food_text (c :: um)) as [items|e'];
      [|cbn in H; congruence].
    destruct (build_nutrition_summary items) as [summary|e'];
      [|cbn in H; congruence].
    unfold ask_gemini in H.
    destruct (service (build_prompt (c :: um) summary)); discriminate.
Qed.

Lemma service_error_is_absorbed_witness :
  let service := fun _ : str => Raise (Exn "ResourceExhausted" (lit "quota")) in
  chat service (Some (lit " 2 eggs ")) =
    (Ok {| reply := lit "There was a problem talking to the AI server. Please try again later.";
           status := 200 |},
     [ GenerateContent (build_prompt (lit "2 eggs") two_eggs_summary);
       Printed (lit "Error talking to Gemini: quota") ]).
Proof.
  intros service.
  pose proof (proj1 (service_error_is_absorbed service (Some (lit " 2 eggs ")))
                (items_of (analyze_food_text (lit "2 eggs"))) two_eggs_summary
                (Exn "ResourceExhausted" (lit "quota"))) as H.
  cbv zeta in H.
  assert (E : strip (message_text (Some (lit " 2 eggs "))) = lit "2 eggs")
    by (vm_compute; reflexivity).
  rewrite E in H. apply H.
  - vm_compute. discriminate.
  - vm_compute. reflexivity.
  - vm_compute. reflexivity.
  - reflexivity.
Defined.

(** With quantities below [2^900] the handler answers with status 200,
    whatever the service does. *)
Lemma chat_status_200 {U : UnicodeData} (service : str -> result str)
  (message : option str) (food_items : list MatchedItem) :
  analyze_food_text (strip (message_text message)) = Ok food_items ->
  Forall (fun item => (quantity item < 2 ^ 900)%Z) food_items ->
  exists r evs,
    chat service message = (Ok {| reply := r; status := 200 |}, evs).
Proof.
  intros Ha Hq. unfold chat.
  destruct (summary_of_matched_items _ _ Ha Hq) as (summary & Hb).
  destruct (strip (message_text message)) as [|c um]; [eauto|].
  rewrite Ha, Hb. unfold ask_gemini.
  destruct (service (build_prompt (c :: um) summary)); cbn [bind]; eauto.
Qed.

(** C9 fails on the code.  The matcher returns on the text of 10^400 apples,
    with the one item of apple and this quantity, and on this item the
    aggregator raises [OverflowError]: the product of the float 0.5 and the
    quantity needs the quantity as a float.  The exception leaves the chat
    handler before the service is called. *)
Theorem aggregator_overflow :
  exists apple,
    lookup (lit "apple") FOOD_DATA = Some apple /\
    let items := [ {| name := lit "apple"; quantity := 10 ^ 400;
                      data := apple |} ] in
    analyze_food_text huge_quantity_text = Ok items /\
    build_nutrition_summary items =
      Raise (OverflowError "int too large to convert to float") /\
    forall service : str -> result str,
      chat service (Some huge_quantity_text) =
        (Raise (OverflowError "int too large to convert to float"), []).
Proof.
  eexists. split; [vm_compute; reflexivity|].
  cbv zeta.
  match goal with
  | |- ?A /\ ?B /\ _ => assert (Ha : A) by (vm_compute; reflexivity);
                        assert (Hb : B) by (vm_compute; reflexivity)
  end.
  split; [exact Ha|]. split; [exact Hb|].
  intros service. unfold chat.
  replace (strip (message_text (Some huge_quantity_text)))
    with huge_quantity_text by (vm_compute; reflexivity).
  rewrite Ha, Hb. reflexivity.
Qed.

(** * Further properties *)

(** ** The matcher *)

Lemma lookup_In (table : list (str * NutrientRecord)) (food : str)
  (d : NutrientRecord) :
  NoDup (map fst table) -> In (food, d) table -> lookup food table = Some d.
Proof.
  induction table as [|[k r] table IH]; cbn [map fst lookup]; intros Hnd Hin;
    [contradiction|].
  apply NoDup_cons_iff in Hnd as [Hfresh Hnd].
  destruct (list_eq_dec N.eq_dec k food) as [->|Hne].
  - destruct Hin as [E|Hin]; [congruence|].
    exfalso. apply Hfresh. apply (in_map fst) in Hin. exact Hin.
  - destruct Hin as [E|Hin]; [congruence|]. now apply IH.
Qed.

(** X1. Every item the matcher emits is an entry of the knowledge base: its
    name is a key of [FOOD_DATA] and its record is the record stored under
    that key. *)
Theorem matched_item_in_table {U : UnicodeData}
  (text : str) (items : list MatchedItem) (it : MatchedItem) :
  analyze_food_text text = Ok items ->
  In it items ->
  lookup (name it) FOOD_DATA = Some (data it).
Proof.
  intros H Hin.
  destruct (analyze_food_text_spec text items H) as (M & _).
  apply lookup_In; [apply FOOD_DATA_names_NoDup|].
  apply (in_map entry_of) in Hin. rewrite M in Hin.
  apply filter_In in Hin. exact (proj1 Hin).
Qed.

Lemma matched_item_in_table_witness :
  lookup (lit "egg") FOOD_DATA =
  Some {| calories := PyInt 78; protein := dec 63 1; carbs := dec 6 1;
          fat := dec 53 1; fiber := PyInt 0;
          notes := lit "Eggs are rich in protein and healthy fats." |}.
Proof.
  apply (matched_item_in_table (lit "3 Eggs")
           (items_of (analyze_food_text (lit "3 Eggs")))
           {| name := lit "egg"; quantity := 3;
              data := {| calories := PyInt 78; protein := dec 63 1;
                         carbs := dec 6 1; fat := dec 53 1; fiber := PyInt 0;
                         notes := lit "Eggs are rich in protein and healthy fats." |} |}).
  - vm_compute. reflexivity.
  - left. reflexivity.
Defined.

(** X2. The matcher returns the empty list exactly when no food name of
    the knowledge base occurs in the lowered text. *)
Theorem no_item_iff_no_food {U : UnicodeData} (text : str) :
  analyze_food_text text = Ok [] <->
  forall food d, In (food, d) FOOD_DATA ->
                 contains food (str_lower text) = false.
Proof.
  split.
  - intros H food d Hin.
    destruct (analyze_food_text_spec text [] H) as (M & _).
    destruct (contains food (str_lower text)) eqn:Hc; [|reflexivity].
    exfalso. cbn [map] in M.
    assert (Hf : In (food, d) (filter (found (str_lower text)) FOOD_DATA))
      by (apply filter_In; split; assumption).
    rewrite <- M in Hf. exact Hf.
  - intros Hnone. now apply analyze_food_text_none.
Qed.

(** X3. When the first digits of the lowered text are a number that stands
    directly in front of the name of an emitted item (white space between
    them at most), this whole number is the quantity of the item. *)
Theorem first_number_is_quantity {U : UnicodeData}
  (text pre ds ws post : str) (items : list MatchedItem) (it : MatchedItem) :
  analyze_food_text text = Ok items ->
  In it items ->
  str_lower text = pre ++ ds ++ ws ++ name it ++ post ->
  Forall (fun c => is_digit c = false) pre ->
  ds <> [] ->
  Forall (fun c => is_digit c = true) ds ->
  Forall (fun c => is_space c = true) ws ->
  match ws ++ name it ++ post with
  | [] => True
  | c :: _ => is_digit c = false
  end ->
  py_int ds = Ok (quantity it).
Proof.
  intros H Hin Hlow Hpre Hne Hds Hws Hnext.
  destruct (analyze_food_text_spec text items H) as (_ & Q).
  rewrite Forall_forall in Q. specialize (Q it Hin).
  unfold quantity_ok in Q.
  rewrite Hlow, (re_search_skip _ _ _ Hpre) in Q.
  rewrite (re_search_here _ _ _
             (match_at_whole_run (name it) ds ws post Hne Hds Hws Hnext)) in Q.
  exact Q.
Qed.

Lemma first_number_is_quantity_witness :
  py_int (lit "12") = Ok 12%Z.
Proof.
  apply (first_number_is_quantity (lit "I had 12  Bananas today")
           (lit "i had ") (lit "12") (lit "  ") (lit "s today")
           (items_of (analyze_food_text (lit "I had 12  Bananas today")))
           {| name := lit "banana"; quantity := 12;
              data := {| calories := PyInt 105; protein := dec 13 1;
                         carbs := PyInt 27; fat := dec 3 1; fiber := dec 31 1;
                         notes := lit "Bananas give quick energy and potassium. Good before exercise." |} |}).
  - vm_compute. reflexivity.
  - left. reflexivity.
  - vm_compute. reflexivity.
  - vm_compute. repeat constructor.
  - discriminate.
  - vm_compute. repeat constructor.
  - vm_compute. repeat constructor.
  - vm_compute. reflexivity.
Defined.

(** X4. When the lowered text has no digit, every item the matcher emits
    has quantity 1. *)
Theorem no_digit_quantity_one {U : UnicodeData}
  (text : str) (items : list MatchedItem) :
  analyze_food_text text = Ok items ->
  Forall (fun c => is_digit c = false) (str_lower text) ->
  Forall (fun it => quantity it = 1%Z) items.
Proof.
  intros H Hnd.
  destruct (analyze_food_text_spec text items H) as (_ & Q).
  eapply Forall_impl; [|exact Q].
  intros it Hq. unfold quantity_ok in Hq.
  destruct (re_search (name it) (str_lower text)) as [g|] eqn:Hre;
    [exfalso|exact Hq].
  destruct (re_search_sound _ _ _ Hre) as (pre & ws & post & Es & Hne & Hds & _).
  rewrite Es, !Forall_app in Hnd. destruct Hnd as (_ & Hg & _).
  destruct g as [|c g]; [congruence|].
  inversion Hds as [|? ? Hc _]; inversion Hg as [|? ? Hc' _]; subst.
  congruence.
Qed.

Lemma no_digit_quantity_one_witness :
  Forall (fun it => quantity it = 1%Z)
    (items_of (analyze_food_text (lit "Two eggs and some Rice"))).
Proof.
  apply (no_digit_quantity_one (lit "Two eggs and some Rice")).
  - vm_compute. reflexivity.
  - vm_compute. repeat constructor.
Defined.

(** X5. No food name of the knowledge base contains another one: on the
    name of an entry alone the matcher emits the item of this entry, with
    quantity 1, and no other item. *)
Theorem food_names_do_not_overlap :
  Forall (fun entry =>
            analyze_food_text (fst entry) =
              Ok [ {| name := fst entry; quantity := 1; data := snd entry |} ])
         FOOD_DATA.
Proof.
  unfold FOOD_DATA.
  repeat (apply Forall_cons; [vm_compute; reflexivity|]).
  apply Forall_nil.
Qed.

(** X16. Whenever the matcher returns, what it returns is the list of the
    table entries whose name occurs in the lowered text, in the order of the
    table: one item for each such entry, however often the name occurs, and
    no two items with the same name. *)
Theorem items_are_the_entries_found {U : UnicodeData}
  (text : str) (items : list MatchedItem) :
  analyze_food_text text = Ok items ->
  map entry_of items =
    filter (fun e => contains (fst e) (str_lower text)) FOOD_DATA /\
  NoDup (map name items) /\
  forall food d,
    In (food, d) FOOD_DATA -> contains food (str_lower text) = true ->
    exists it, In it items /\ name it = food /\ data it = d /\
               forall it', In it' items -> name it' = food -> it' = it.
Proof.
  intros H. destruct (analyze_food_text_spec text items H) as (M & _).
  assert (Hnd : NoDup (map name items)).
  { replace (map name items) with (map fst (map entry_of items))
      by (rewrite map_map; reflexivity).
    rewrite M. apply found_names_NoDup, FOOD_DATA_names_NoDup. }
  split; [exact M|]. split; [exact Hnd|].
  intros food d Hin Hc.
  assert (Hf : In (food, d) (map entry_of items)).
  { rewrite M. apply filter_In. now split. }
  apply in_map_iff in Hf as (it & Hit & Hitin).
  injection Hit as Hn Hd.
  exists it. split; [exact Hitin|]. split; [exact Hn|]. split; [exact Hd|].
  intros it' Hin' Hn'. apply (NoDup_map_eq name items); congruence.
Qed.

Lemma items_are_the_entries_found_witness :
  let text := lit "An apple, 2 Apples and rice" in
  let items := items_of (analyze_food_text text) in
  map entry_of items =
    filter (fun e => contains (fst e) (str_lower text)) FOOD_DATA /\
  NoDup (map name items) /\
  forall food d,
    In (food, d) FOOD_DATA -> contains food (str_lower text) = true ->
    exists it, In it items /\ name it = food /\ data it = d /\
               forall it', In it' items -> name it' = food -> it' = it.
Proof.
  intros text items.
  apply (items_are_the_entries_found text items).
  vm_compute. reflexivity.
Defined.

(** X17. The matcher returns exactly when, for every food name that occurs
    in the lowered text, the number the pattern finds in front of it (if
    any) has at most 4300 digits; and the only exception the matcher raises
    is [ValueError]. *)
Theorem matcher_returns_iff_numbers_fit {U : UnicodeData} (text : str) :
  ((exists items, analyze_food_text text = Ok items) <->
   (forall food d g,
      In (food, d) FOOD_DATA ->
      contains food (str_lower text) = true ->
      re_search food (str_lower text) = Some g ->
      (List.length g <= 4300)%nat)) /\
  (forall e, analyze_food_text text = Raise e ->
             exc_type e = "ValueError"%string).
Proof.
  split; [split|].
  - intros [items H] food d g Hin Hc Hre.
    destruct (analyze_food_text_spec text items H) as (M & Q).
    assert (Hf : In (food, d) (map entry_of items)).
    { rewrite M. apply filter_In. now split. }
    apply in_map_iff in Hf as (it & Hit & Hitin).
    injection Hit as Hn Hd.
    rewrite Forall_forall in Q. specialize (Q it Hitin).
    unfold quantity_ok in Q. rewrite Hn, Hre in Q.
    destruct (re_search_sound _ _ _ Hre) as (_ & _ & _ & _ & _ & Hds & _).
    exact (proj1 (py_int_inv _ _ Hds Q)).
  - intros Hfit.
    apply (analyze_loop_returns (str_lower text) FOOD_DATA []).
    apply Forall_forall. intros [food d] Hin. unfold number_fits. cbn [fst].
    intros Hc g Hre. exact (Hfit food d g Hin Hc Hre).
  - intros e H.
    exact (proj1 (analyze_loop_raises (str_lower text) FOOD_DATA [] e H)).
Qed.

(** ** The aggregator: values and layout *)

Section TimesOne.
Local Open Scope Z_scope.

Lemma Z2SF_one : Z2SF 1 = S754_finite false 4503599627370496 (-52).
Proof. reflexivity. Qed.

Lemma shift_52 (m : positive) :
  iter_pos shr_1 52 (Build_shr_record (Zpos (4503599627370496 * m)) false false)
  = Build_shr_record (Zpos m) false false.
Proof. reflexivity. Qed.

(** The product of a binary64 value and 1.0 is the value. *)
Lemma SFmul_one (x : spec_float) :
  valid_binary prec emax x = true -> SFmul prec emax x (Z2SF 1) = x.
Proof.
  rewrite Z2SF_one. destruct x as [s|s| |s m e]; cbn [SFmul valid_binary];
    intros Hv; rewrite ?xorb_false_r; try reflexivity.
  unfold bounded, canonical_mantissa in Hv.
  apply andb_true_iff in Hv as [Hc Hb]. apply Z.eqb_eq in Hc.
  unfold binary_round_aux, shr_fexp.
  rewrite (Pos.mul_comm m).
  change (shr_record_of_loc (Zpos (4503599627370496 * m)) loc_Exact)
    with (Build_shr_record (Zpos (4503599627370496 * m)) false false).
  cbn [Zdigits2].
  assert (Hd : Zpos (digits2_pos (4503599627370496 * m))
               = Zpos (digits2_pos m) + 52)
    by (cbn [Pos.mul digits2_pos]; lia).
  rewrite Hd.
  replace (Zpos (digits2_pos m) + 52 + (e + -52)) with (Zpos (digits2_pos m) + e)
    by lia.
  rewrite Hc. replace (e - (e + -52)) with 52 by lia.
  cbn [shr]. rewrite shift_52.
  cbn [shr_m loc_of_shr_record round_nearest_even shr_record_of_loc Zdigits2].
  replace (e + -52 + 52) with e by lia.
  rewrite Hc, Z.sub_diag. cbn [shr shr_m].
  now rewrite Hb.
Qed.

End TimesOne.

Lemma py_mul_one (v : num) : valid_num v -> py_mul v 1 = Ok v.
Proof.
  destruct v as [n|x]; cbn [valid_num py_mul]; intros Hv.
  - now rewrite Z.mul_1_r.
  - change (int_to_float 1) with (Ok (Z2SF 1)). cbn [bind].
    now rewrite SFmul_one.
Qed.

(** X6. For an item of quantity 1 the five products are the five entries
    of its record, unchanged: an [int] stays the same [int] and a [float] the
    same [float]. *)
Theorem quantity_one_keeps_base_values (item : MatchedItem) :
  quantity item = 1%Z ->
  valid_record (data item) ->
  item_values item =
    Ok {| v_cals := calories (data item); v_protein := protein (data item);
          v_carbs := carbs (data item); v_fat := fat (data item);
          v_fiber := fiber (data item) |}.
Proof.
  intros Hq (Hc & Hp & Hcb & Hf & Hfb). unfold item_values. rewrite Hq.
  now rewrite !py_mul_one.
Qed.

Lemma quantity_one_keeps_base_values_witness :
  item_values snack =
    Ok {| v_cals := PyInt 10; v_protein := dec 34 2; v_carbs := PyInt 0;
          v_fat := PyInt 0; v_fiber := PyInt 0 |}.
Proof.
  apply (quantity_one_keeps_base_values snack).
  - reflexivity.
  - repeat split.
Defined.

(** X7. Every summary of a sequence that has an item is laid out as: the
    heading, one line per item in the order of the items, two empty lines,
    and the totals block without indentation and with a final line break,
    its numbers being the rounded total of the calories and the four other
    totals with one decimal. *)
Theorem summary_layout (food_items : list MatchedItem) (s : str) :
  food_items <> [] ->
  build_nutrition_summary food_items = Ok s ->
  exists totals lines c,
    exact_totals food_items zero_totals = Ok totals /\
    Forall2 line_of food_items lines /\
    round_float (total_calories totals) = Ok c /\
    s = lit "Nutrition breakdown:" ++ nl ++ join nl lines ++ nl ++ nl
        ++ totals_text c totals.
Proof.
  intros Hne H. destruct food_items as [|item rest]; [congruence|].
  cbn [build_nutrition_summary] in H.
  destruct (summary_loop (item :: rest) (zero_totals, [])) as [[t ls]|e] eqn:Hl;
    [|discriminate].
  cbn [bind] in H.
  destruct (totals_block t) as [block|e] eqn:Hb; [|discriminate].
  cbn [bind] in H.
  destruct (dedent_totals_block t block Hb) as (c & Hc & Hd).
  destruct (summary_loop_lines _ _ _ _ Hl) as (new & E & F).
  cbn [snd app] in E. subst new.
  exists t, ls, c. split; [apply (summary_loop_totals _ _ _ _ Hl)|].
  split; [exact F|]. split; [exact Hc|].
  rewrite <- Hd. congruence.
Qed.

Lemma summary_layout_witness :
  exists totals lines c,
    exact_totals [snack; snack; snack] zero_totals = Ok totals /\
    Forall2 line_of [snack; snack; snack] lines /\
    round_float (total_calories totals) = Ok c /\
    three_snacks_summary =
      lit "Nutrition breakdown:" ++ nl ++ join nl lines ++ nl ++ nl
      ++ totals_text c totals.
Proof.
  apply (summary_layout [snack; snack; snack]).
  - discriminate.
  - vm_compute. reflexivity.
Defined.

(** ** Integers below [2^53] in binary64, and the calories *)

Section ExactIntegers.
Local Open Scope Z_scope.

Lemma iter_xO_value (m d : positive) :
  Zpos (Pos.iter xO m d) = Zpos m * 2 ^ Zpos d.
Proof.
  induction d using Pos.peano_ind.
  - cbn [Pos.iter]. lia.
  - rewrite Pos.iter_succ, Pos2Z.inj_xO, IHd, Pos2Z.inj_succ, Z.pow_succ_r by lia.
    lia.
Qed.

Lemma shl_align_value (m : positive) (e e' : Z) :
  e' <= e -> Zpos (fst (shl_align m e e')) = Zpos m * 2 ^ (e - e').
Proof.
  intros Hle. unfold shl_align.
  destruct (e' - e) as [|d|d] eqn:Hd; cbn [fst]; try lia.
  - replace (e - e') with 0 by lia. lia.
  - rewrite iter_xO_value. f_equal. f_equal. lia.
Qed.

Lemma norm53_spec (q : positive) :
  Zpos (digits2_pos q) <= 53 ->
  snd (norm53 q) = Zpos (digits2_pos q) - 53 /\
  Zpos (digits2_pos (fst (norm53 q))) = 53 /\
  Zpos (fst (norm53 q)) = Zpos q * 2 ^ (53 - Zpos (digits2_pos q)).
Proof.
  intros Hd. unfold norm53.
  destruct (shl_align_spec q 0 (Zpos (digits2_pos q) - 53)) as [H1 H2].
  rewrite shl_align_value by lia.
  repeat split; [lia|lia|f_equal; f_equal; lia].
Qed.

(** Shifting out zeros is exact. *)
Lemma shift_out_zeros (n : positive) :
  forall m : positive,
    iter_pos shr_1 n (Build_shr_record (Zpos (Pos.iter xO m n)) false false)
    = Build_shr_record (Zpos m) false false.
Proof.
  induction n as [n IH|n IH|]; intros m; cbn [iter_pos Pos.iter shr_1 orb].
  - now rewrite !IH.
  - now rewrite !IH.
  - reflexivity.
Qed.

(** A canonical mantissa passes through rounding unchanged, also after zeros
    were appended to it. *)
Lemma round_canonical (s : bool) (m : positive) (e : Z) :
  canonical_mantissa prec emax m e = true -> e <= 971 ->
  binary_round_aux prec emax s (Zpos m) e loc_Exact = S754_finite s m e.
Proof.
  intros Hc He. apply Z.eqb_eq in Hc.
  unfold binary_round_aux, shr_fexp. cbn [Zdigits2 shr_record_of_loc].
  rewrite Hc, Z.sub_diag.
  cbn [shr shr_m loc_of_shr_record round_nearest_even shr_record_of_loc Zdigits2].
  rewrite Hc, Z.sub_diag. cbn [shr shr_m].
  change (emax - prec) with 971. apply Z.leb_le in He. now rewrite He.
Qed.

Lemma round_canonical_shifted (s : bool) (m n : positive) (e : Z) :
  canonical_mantissa prec emax m e = true -> e <= 971 ->
  binary_round_aux prec emax s (Zpos (Pos.iter xO m n)) (e - Zpos n) loc_Exact
  = S754_finite s m e.
Proof.
  intros Hc He. pose proof Hc as Hc'. apply Z.eqb_eq in Hc.
  unfold binary_round_aux, shr_fexp. cbn [Zdigits2 shr_record_of_loc].
  assert (Hd : Zpos (digits2_pos (Pos.iter xO m n)) = Zpos (digits2_pos m) + Zpos n).
  { rewrite !digits2_log2, iter_xO_value.
    rewrite <- Z.shiftl_mul_pow2, Z.log2_shiftl by lia. lia. }
  rewrite Hd.
  replace (Zpos (digits2_pos m) + Zpos n + (e - Zpos n))
    with (Zpos (digits2_pos m) + e) by lia.
  rewrite Hc. replace (e - (e - Zpos n)) with (Zpos n) by lia.
  cbn [shr]. rewrite shift_out_zeros.
  cbn [shr_m loc_of_shr_record round_nearest_even shr_record_of_loc Zdigits2].
  replace (e - Zpos n + Zpos n) with e by lia.
  rewrite Hc, Z.sub_diag. cbn [shr shr_m].
  change (emax - prec) with 971. apply Z.leb_le in He. now rewrite He.
Qed.

Lemma norm53_canonical (q : positive) :
  Zpos (digits2_pos q) <= 53 ->
  canonical_mantissa prec emax (fst (norm53 q)) (snd (norm53 q)) = true /\
  snd (norm53 q) <= 971.
Proof.
  intros Hd. destruct (norm53_spec q Hd) as (He & Hm & _).
  unfold canonical_mantissa. rewrite Hm, He, fexp_eq.
  split; [apply Z.eqb_eq|]; lia.
Qed.

(** The float of a positive integer of at most 53 bits. *)
Lemma Z2SF_small (q : positive) :
  Zpos (digits2_pos q) <= 53 ->
  Z2SF (Zpos q) = S754_finite false (fst (norm53 q)) (snd (norm53 q)).
Proof.
  intros Hd. destruct (norm53_canonical q Hd) as [Hc He].
  unfold Z2SF, binary_normalize, binary_round.
  replace (fexp prec emax (Zpos (digits2_pos q) + 0))
    with (Zpos (digits2_pos q) - 53) by (rewrite fexp_eq; lia).
  fold (norm53 q). destruct (norm53 q) as [mz ez]. cbn [fst snd] in *.
  now apply round_canonical.
Qed.

(** Rounding an integer of at most 53 bits that carries [k] more zero bits,
    at exponent [-k], gives the float of the integer. *)
Lemma binary_round_scaled (q k : positive) :
  Zpos (digits2_pos q) <= 53 ->
  binary_round prec emax false (Pos.iter xO q k) (Zneg k) = Z2SF (Zpos q).
Proof.
  intros Hd. rewrite (Z2SF_small q Hd).
  destruct (norm53_canonical q Hd) as [Hc He].
  destruct (norm53_spec q Hd) as (Hs & Hdm & Hv).
  assert (HdQ : Zpos (digits2_pos (Pos.iter xO q k)) = Zpos (digits2_pos q) + Zpos k).
  { rewrite !digits2_log2, iter_xO_value.
    rewrite <- Z.shiftl_mul_pow2, Z.log2_shiftl by lia. lia. }
  unfold binary_round. rewrite HdQ.
  replace (fexp prec emax (Zpos (digits2_pos q) + Zpos k + Zneg k))
    with (Zpos (digits2_pos q) - 53) by (rewrite fexp_eq; lia).
  destruct (Z.le_gt_cases (Zpos (digits2_pos q) - 53) (Zneg k)) as [Hle|Hgt].
  - (* the mantissa is aligned by appending zeros *)
    destruct (shl_align_spec (Pos.iter xO q k) (Zneg k) (Zpos (digits2_pos q) - 53))
      as [_ Hsnd].
    pose proof (shl_align_value (Pos.iter xO q k) (Zneg k)
                  (Zpos (digits2_pos q) - 53) Hle) as Hfst.
    destruct (shl_align (Pos.iter xO q k) (Zneg k) (Zpos (digits2_pos q) - 53))
      as [mz ez]. cbn [fst snd] in *.
    assert (Hmz : mz = fst (norm53 q)).
    { apply Pos2Z.inj. rewrite Hfst, Hv, iter_xO_value.
      rewrite <- Z.mul_assoc, <- Z.pow_add_r by lia. f_equal. f_equal. lia. }
    assert (Hez : ez = snd (norm53 q)) by lia.
    rewrite Hmz, Hez. now apply round_canonical.
  - (* zeros are shifted out by the rounding *)
    unfold shl_align.
    destruct (Zpos (digits2_pos q) - 53 - Zneg k) as [|n|n] eqn:Hn; try lia.
    assert (Hq : Pos.iter xO q k = Pos.iter xO (fst (norm53 q)) n).
    { apply Pos2Z.inj. rewrite !iter_xO_value, Hv.
      rewrite <- Z.mul_assoc, <- Z.pow_add_r by lia. f_equal. f_equal. lia. }
    rewrite Hq. replace (Zneg k) with (snd (norm53 q) - Zpos n) by lia.
    now apply round_canonical_shifted.
Qed.

Lemma digits_small (n : positive) : Zpos n < 2 ^ 53 -> Zpos (digits2_pos n) <= 53.
Proof.
  intros H. rewrite digits2_log2.
  assert (Z.log2 (Zpos n) < 53) by (apply Z.log2_lt_pow2; lia). lia.
Qed.

(** Adding the floats of two integers gives the float of their sum, as long
    as the sum is below [2^53]. *)
Lemma SFadd_exact (a b : Z) :
  0 <= a -> 0 <= b -> a + b < 2 ^ 53 ->
  SFadd prec emax (Z2SF a) (Z2SF b) = Z2SF (a + b).
Proof.
  intros Ha Hb Hsum.
  destruct a as [|a|a], b as [|b|b]; try lia; try reflexivity.
  { rewrite Z.add_0_l, (Z2SF_small b) by (apply digits_small; lia).
    reflexivity. }
  { rewrite Z.add_0_r, (Z2SF_small a) by (apply digits_small; lia).
    reflexivity. }
  clear Ha Hb.
  assert (Da : Zpos (digits2_pos a) <= 53) by (apply digits_small; lia).
  assert (Db : Zpos (digits2_pos b) <= 53) by (apply digits_small; lia).
  rewrite (Z2SF_small a Da), (Z2SF_small b Db).
  destruct (norm53_spec a Da) as (Hea & Hda & Hva).
  destruct (norm53_spec b Db) as (Heb & Hdb & Hvb).
  destruct (norm53 a) as [ma ea], (norm53 b) as [mb eb]. cbn [fst snd] in *.
  cbn [SFadd cond_Zopp].
  change (IntDef.Z.min ea eb) with (Z.min ea eb).
  set (ez := Z.min ea eb).
  pose proof (shl_align_value ma ea ez ltac:(unfold ez; lia)) as Va.
  pose proof (shl_align_value mb eb ez ltac:(unfold ez; lia)) as Vb.
  destruct (shl_align ma ea ez) as [ma' ?], (shl_align mb eb ez) as [mb' ?].
  cbn [fst] in *.
  change (Zpos ma' + Zpos mb') with (Zpos (ma' + mb')%positive).
  cbn [binary_normalize].
  (* the least exponent is negative: two 53-bit integers would add up to
     more than 53 bits *)
  assert (Hez : ez < 0).
  { destruct (Z.eq_dec ez 0) as [E|]; [exfalso|unfold ez in *; lia].
    assert (Zpos (digits2_pos a) = 53 /\ Zpos (digits2_pos b) = 53)
      as [Ea Eb] by (unfold ez in *; lia).
    rewrite digits2_log2 in Ea, Eb.
    pose proof (Z.log2_spec (Zpos a) ltac:(lia)) as [La _].
    pose proof (Z.log2_spec (Zpos b) ltac:(lia)) as [Lb _].
    replace (Z.log2 (Zpos a)) with 52 in La by lia.
    replace (Z.log2 (Zpos b)) with 52 in Lb by lia.
    change (2 ^ 53) with (2 ^ 52 + 2 ^ 52) in Hsum. lia. }
  destruct ez as [|k|k] eqn:Ek; try lia.
  assert (HM : (ma' + mb')%positive = Pos.iter xO (a + b)%positive k).
  { apply Pos2Z.inj. rewrite iter_xO_value, Pos2Z.inj_add, Va, Vb, Hva, Hvb.
    rewrite <- !Z.mul_assoc, <- !Z.pow_add_r by lia.
    replace (53 - Zpos (digits2_pos a) + (ea - Zneg k)) with (Zpos k) by lia.
    replace (53 - Zpos (digits2_pos b) + (eb - Zneg k)) with (Zpos k) by lia.
    lia. }
  rewrite HM. change (Zpos a + Zpos b) with (Zpos (a + b)%positive).
  apply binary_round_scaled. apply digits_small. exact Hsum.
Qed.

(** [round] of the float of an integer below [2^53] is the integer. *)
Lemma round_float_exact (n : Z) :
  0 <= n < 2 ^ 53 -> round_float (Z2SF n) = Ok n.
Proof.
  intros [Hn Hlt]. destruct n as [|q|q]; [reflexivity| |lia].
  assert (Dq : Zpos (digits2_pos q) <= 53) by (apply digits_small; lia).
  rewrite (Z2SF_small q Dq).
  destruct (norm53_spec q Dq) as (He & _ & Hv).
  destruct (norm53 q) as [m e]. cbn [fst snd] in *.
  cbn [round_float]. f_equal. unfold round_scaled.
  destruct (Z.leb_spec 0 e) as [H0|H0].
  - replace e with 0 in * by lia. rewrite Hv.
    replace (53 - Zpos (digits2_pos q)) with 0 by lia. lia.
  - unfold round_half_even. rewrite Hv.
    replace (53 - Zpos (digits2_pos q)) with (- e) by lia.
    assert (0 < 2 ^ (- e)) by (apply Z.pow_pos_nonneg; lia).
    rewrite Z.div_mul, Z.mod_mul by lia.
    destruct (2 * 0 ?= 2 ^ (- e)) eqn:Hcmp; try reflexivity.
    + apply Z.compare_eq in Hcmp. lia.
    + apply Z.compare_gt_iff in Hcmp. lia.
Qed.

End ExactIntegers.

Section ExactCalories.
Local Open Scope Z_scope.

Lemma int_to_float_small (n : Z) :
  0 <= n < 2 ^ 53 -> int_to_float n = Ok (Z2SF n).
Proof.
  intros [Hn Hlt]. unfold int_to_float.
  destruct n as [|q|q]; [reflexivity| |lia].
  now rewrite (Z2SF_small q) by (apply digits_small; lia).
Qed.

Lemma item_calories_nonneg (item : MatchedItem) :
  int_calories item -> 0 <= item_calories item.
Proof.
  intros (c & Hc & H0 & Hq). unfold item_calories. rewrite Hc. nia.
Qed.

Lemma calories_sum_nonneg (food_items : list MatchedItem) :
  Forall int_calories food_items -> 0 <= calories_sum food_items.
Proof.
  induction 1 as [|item rest Hi _ IH]; cbn [calories_sum fold_right]; [lia|].
  pose proof (item_calories_nonneg item Hi).
  fold (calories_sum rest). lia.
Qed.

(** One turn of the loop adds the calories of the item, exactly. *)
Lemma summary_step_calories (item : MatchedItem) (t t' : Totals)
  (ls ls' : list str) (S : Z) :
  int_calories item ->
  0 <= S -> S + item_calories item < 2 ^ 53 ->
  total_calories t = Z2SF S ->
  summary_step (t, ls) item = Ok (t', ls') ->
  total_calories t' = Z2SF (S + item_calories item) /\
  exists rest,
    ls' = ls ++ [ str_of_int (quantity item) ++ lit " x " ++ name item
                  ++ lit ": ~" ++ str_of_int (item_calories item)
                  ++ lit " kcal " ++ rest ].
Proof.
  intros Hi HS Hlt Ht H. pose proof (item_calories_nonneg item Hi) as Hnn.
  destruct Hi as (c & Hc & H0 & Hq).
  unfold item_calories in *. rewrite Hc in *.
  unfold summary_step, item_values in H. rewrite Hc in H.
  cbn [py_mul bind] in H.
  destruct (py_mul (protein (data item)) (quantity item)) as [vp|]; [|discriminate].
  destruct (py_mul (carbs (data item)) (quantity item)) as [vc|]; [|discriminate].
  destruct (py_mul (fat (data item)) (quantity item)) as [vf|]; [|discriminate].
  destruct (py_mul (fiber (data item)) (quantity item)) as [vfb|]; [|discriminate].
  cbn [bind] in H. unfold add_totals in H.
  cbn [v_cals v_protein v_carbs v_fat v_fiber py_iadd] in H.
  rewrite int_to_float_small in H by lia. cbn [bind] in H.
  destruct (py_iadd (total_protein t) vp) as [tp|]; [|discriminate].
  destruct (py_iadd (total_carbs t) vc) as [tc|]; [|discriminate].
  destruct (py_iadd (total_fat t) vf) as [tf|]; [|discriminate].
  destruct (py_iadd (total_fiber t) vfb) as [tfb|]; [|discriminate].
  cbn [bind] in H. unfold item_line in H.
  cbn [v_cals v_protein v_carbs v_fat v_fiber py_round] in H.
  destruct (py_str (quantity item)) as [sq|] eqn:Sq; [|discriminate].
  cbn [bind] in H.
  destruct (py_str (c * quantity item)) as [sk|] eqn:Sk; [|discriminate].
  cbn [bind] in H.
  destruct (format_1f vp) as [sp|]; [|discriminate].
  destruct (format_1f vc) as [sc|]; [|discriminate].
  destruct (format_1f vf) as [sf|]; [|discriminate].
  destruct (format_1f vfb) as [sfb|]; [|discriminate].
  cbn [bind] in H. injection H as <- <-. cbn [total_calories]. split.
  - rewrite Ht. apply SFadd_exact; lia.
  - rewrite (py_str_inv _ _ Sq), (py_str_inv _ _ Sk). eexists. reflexivity.
Qed.

Lemma summary_loop_calories (food_items : list MatchedItem) :
  forall (t t' : Totals) (ls ls' : list str) (S : Z),
    Forall int_calories food_items ->
    0 <= S -> S + calories_sum food_items < 2 ^ 53 ->
    total_calories t = Z2SF S ->
    summary_loop food_items (t, ls) = Ok (t', ls') ->
    total_calories t' = Z2SF (S + calories_sum food_items) /\
    exists new,
      ls' = ls ++ new /\
      Forall2 (fun item line =>
                 exists rest,
                   line = str_of_int (quantity item) ++ lit " x " ++ name item
                          ++ lit ": ~" ++ str_of_int (item_calories item)
                          ++ lit " kcal " ++ rest)
              food_items new.
Proof.
  induction food_items as [|item rest IH]; intros t t' ls ls' S Hall HS Hlt Ht H.
  - cbn in H. injection H as <- <-. cbn [calories_sum fold_right].
    rewrite Z.add_0_r. split; [exact Ht|].
    exists []. rewrite app_nil_r. split; [reflexivity|constructor].
  - inversion Hall as [|? ? Hi Hrest]; subst.
    cbn [calories_sum fold_right] in Hlt |- *. fold (calories_sum rest) in *.
    pose proof (item_calories_nonneg item Hi) as Hnn.
    pose proof (calories_sum_nonneg rest Hrest) as Hrn.
    cbn [summary_loop] in H.
    destruct (summary_step (t, ls) item) as [[t1 l1]|] eqn:Hstep; [|discriminate].
    cbn [bind] in H.
    destruct (summary_step_calories item t t1 ls l1 S Hi HS ltac:(lia) Ht Hstep)
      as (Ht1 & r & Hl1).
    destruct (IH t1 t' l1 ls' (S + item_calories item) Hrest ltac:(lia)
                ltac:(lia) Ht1 H) as (Ht' & new & Hnew & F).
    split; [rewrite Ht'; f_equal; lia|].
    exists ((str_of_int (quantity item) ++ lit " x " ++ name item
             ++ lit ": ~" ++ str_of_int (item_calories item)
             ++ lit " kcal " ++ r) :: new).
    split; [rewrite Hnew, Hl1, <- app_assoc; reflexivity|].
    constructor; [now exists r|exact F].
Qed.

End ExactCalories.

(** X9. For items whose calories are an [int] and whose calories and
    quantities are not negative, the calories the summary shows are exact as
    long as their sum is below [2^53]: each line shows calories times
    quantity of its item and the totals block shows the sum of these
    products, with no rounding error from the float that holds the total. *)
Theorem calories_are_exact (food_items : list MatchedItem) (s : str) :
  food_items <> [] ->
  Forall int_calories food_items ->
  (calories_sum food_items < 2 ^ 53)%Z ->
  build_nutrition_summary food_items = Ok s ->
  exists totals lines,
    Forall2 (fun item line =>
               exists rest,
                 line = str_of_int (quantity item) ++ lit " x " ++ name item
                        ++ lit ": ~" ++ str_of_int (item_calories item)
                        ++ lit " kcal " ++ rest)
            food_items lines /\
    s = lit "Nutrition breakdown:" ++ nl ++ join nl lines ++ nl ++ nl
        ++ totals_text (calories_sum food_items) totals.
Proof.
  intros Hne Hall Hlt H. destruct food_items as [|item rest]; [congruence|].
  cbn [build_nutrition_summary] in H.
  destruct (summary_loop (item :: rest) (zero_totals, [])) as [[t ls]|e] eqn:Hl;
    [|discriminate].
  cbn [bind] in H.
  destruct (totals_block t) as [block|e] eqn:Hb; [|discriminate].
  cbn [bind] in H.
  destruct (dedent_totals_block t block Hb) as (c & Hc & Hd).
  destruct (summary_loop_calories (item :: rest) zero_totals t [] ls 0%Z Hall
              ltac:(lia) ltac:(lia) eq_refl Hl) as (Ht & new & Hnew & F).
  cbn [app] in Hnew. subst new.
  rewrite Ht, Z.add_0_l, round_float_exact in Hc
    by (split; [now apply calories_sum_nonneg|lia]).
  injection Hc as <-.
  exists t, ls. split; [exact F|].
  assert (Hd' : dedent block = totals_text (calories_sum (item :: rest)) t)
    by exact Hd.
  rewrite <- Hd'. congruence.
Qed.

Lemma calories_are_exact_witness :
  exists totals lines,
    Forall2 (fun item line =>
               exists rest,
                 line = str_of_int (quantity item) ++ lit " x " ++ name item
                        ++ lit ": ~" ++ str_of_int (item_calories item)
                        ++ lit " kcal " ++ rest)
            [snack; snack; snack] lines /\
    three_snacks_summary =
      lit "Nutrition breakdown:" ++ nl ++ join nl lines ++ nl ++ nl
      ++ totals_text (calories_sum [snack; snack; snack]) totals.
Proof.
  apply (calories_are_exact [snack; snack; snack]).
  - discriminate.
  - repeat constructor; exists 10%Z; repeat split; cbn; lia.
  - vm_compute. reflexivity.
  - vm_compute. reflexivity.
Defined.

Section ExactTotals.
Local Open Scope Z_scope.

Lemma int_product_nonneg (field : NutrientRecord -> num) (item : MatchedItem) :
  int_entry field item -> 0 <= int_product field item.
Proof.
  intros (n & Hn & H0 & Hq). unfold int_product. rewrite Hn. nia.
Qed.

Lemma int_sum_nonneg (field : NutrientRecord -> num)
  (food_items : list MatchedItem) :
  Forall (int_entry field) food_items -> 0 <= int_sum field food_items.
Proof.
  induction 1 as [|item rest Hi _ IH]; cbn [int_sum fold_right]; [lia|].
  pose proof (int_product_nonneg field item Hi).
  fold (int_sum field rest). lia.
Qed.

(** The float sum of the contributions of [int] entries is the float of
    their integer sum, as long as this sum is below [2^53]. *)
Lemma fold_unrounded_exact (field : NutrientRecord -> num)
  (food_items : list MatchedItem) :
  forall S : Z,
    Forall (int_entry field) food_items ->
    0 <= S -> S + int_sum field food_items < 2 ^ 53 ->
    fold_left (fun t item =>
                 SFadd prec emax t
                   (unrounded (field (data item)) (quantity item)))
              food_items (Z2SF S)
    = Z2SF (S + int_sum field food_items).
Proof.
  induction food_items as [|item rest IH]; intros S Hall HS Hlt.
  - cbn [fold_left int_sum fold_right]. now rewrite Z.add_0_r.
  - inversion Hall as [|? ? Hi Hrest]; subst.
    cbn [int_sum fold_right] in Hlt |- *. fold (int_sum field rest) in *.
    pose proof (int_product_nonneg field item Hi) as Hnn.
    pose proof (int_sum_nonneg field rest Hrest) as Hrn.
    cbn [fold_left].
    assert (Hu : unrounded (field (data item)) (quantity item)
                 = Z2SF (int_product field item)).
    { destruct Hi as (n & Hn & _). unfold int_product. now rewrite Hn. }
    rewrite Hu, SFadd_exact by lia.
    rewrite IH by (try assumption; lia).
    f_equal. lia.
Qed.

Lemma total_of_exact (field : NutrientRecord -> num)
  (food_items : list MatchedItem) :
  Forall (int_entry field) food_items ->
  int_sum field food_items < 2 ^ 53 ->
  total_of field food_items = Z2SF (int_sum field food_items).
Proof.
  intros Hall Hlt.
  apply (fold_unrounded_exact field food_items 0 Hall); lia.
Qed.

End ExactTotals.

(** X18. For items whose records hold [int] values only, none of them and
    no quantity negative, the five totals of the summary are exact as long
    as each sum is below [2^53]: every total is the float of the integer
    sum of base value times quantity over the items, and the calories shown
    are this sum for the calories. *)
Theorem integer_totals_are_exact (food_items : list MatchedItem) (s : str) :
  food_items <> [] ->
  (forall field, In field [calories; protein; carbs; fat; fiber] ->
                 Forall (int_entry field) food_items /\
                 (int_sum field food_items < 2 ^ 53)%Z) ->
  build_nutrition_summary food_items = Ok s ->
  exists lines,
    Forall2 shown_line food_items lines /\
    s = lit "Nutrition breakdown:" ++ nl ++ join nl lines ++ nl ++ nl
        ++ totals_text (int_sum calories food_items)
             {| total_calories := Z2SF (int_sum calories food_items);
                total_protein := Z2SF (int_sum protein food_items);
                total_carbs := Z2SF (int_sum carbs food_items);
                total_fat := Z2SF (int_sum fat food_items);
                total_fiber := Z2SF (int_sum fiber food_items) |}.
Proof.
  intros Hne Hint H.
  destruct food_items as [|item rest]; [congruence|].
  cbn [build_nutrition_summary] in H.
  destruct (summary_loop (item :: rest) (zero_totals, [])) as [[t ls]|e] eqn:Hl;
    [|discriminate].
  cbn [bind] in H.
  destruct (totals_block t) as [block|e] eqn:Hb; [|discriminate].
  cbn [bind] in H.
  destruct (dedent_totals_block t block Hb) as (c & Hc & Hd).
  destruct (summary_loop_unrounded _ _ _ _ _ Hl) as (Ht & new & E & F).
  cbn [app] in E. subst new.
  assert (Ht' : t = unrounded_totals (item :: rest)) by exact Ht.
  clear Ht. subst t. unfold unrounded_totals in Hc, Hd.
  cbn [total_calories] in Hc.
  destruct (Hint calories ltac:(cbn; tauto)) as (Ic & Sc).
  destruct (Hint protein ltac:(cbn; tauto)) as (Ip & Sp).
  destruct (Hint carbs ltac:(cbn; tauto)) as (Icb & Scb).
  destruct (Hint fat ltac:(cbn; tauto)) as (If & Sf).
  destruct (Hint fiber ltac:(cbn; tauto)) as (Ifb & Sfb).
  rewrite (total_of_exact calories _ Ic Sc) in Hc, Hd.
  rewrite (total_of_exact protein _ Ip Sp), (total_of_exact carbs _ Icb Scb),
    (total_of_exact fat _ If Sf), (total_of_exact fiber _ Ifb Sfb) in Hd.
  rewrite round_float_exact in Hc
    by (split; [now apply int_sum_nonneg|assumption]).
  assert (Ec : c = int_sum calories (item :: rest)) by congruence.
  rewrite Ec in Hd.
  exists ls. split; [exact F|].
  rewrite <- Hd. congruence.
Qed.

Lemma integer_totals_are_exact_witness :
  let food_items := items_of (analyze_food_text (lit "2 pizzas, fries and 3 sodas")) in
  exists lines,
    Forall2 shown_line food_items lines /\
    lit
"Nutrition breakdown:
2 x pizza: ~570 kcal (protein: 24.0 g, carbs: 72.0 g, fat: 20.0 g, fiber: 4.0 g)
1 x fries: ~180 kcal (protein: 2.0 g, carbs: 22.0 g, fat: 9.0 g, fiber: 2.0 g)
3 x soda: ~420 kcal (protein: 0.0 g, carbs: 117.0 g, fat: 0.0 g, fiber: 0.0 g)


Total approximate values:
- Calories: 1170 kcal
- Protein: 26.0 g
- Carbohydrates: 211.0 g
- Fat: 29.0 g
- Fiber: 6.0 g
" = lit "Nutrition breakdown:" ++ nl ++ join nl lines ++ nl ++ nl
        ++ totals_text (int_sum calories food_items)
             {| total_calories := Z2SF (int_sum calories food_items);
                total_protein := Z2SF (int_sum protein food_items);
                total_carbs := Z2SF (int_sum carbs food_items);
                total_fat := Z2SF (int_sum fat food_items);
                total_fiber := Z2SF (int_sum fiber food_items) |}.
Proof.
  intros food_items.
  apply (integer_totals_are_exact food_items).
  - vm_compute. discriminate.
  - assert (E : food_items =
        [ {| name := lit "pizza"; quantity := 2;
             data := {| calories := PyInt 285; protein := PyInt 12;
                        carbs := PyInt 36; fat := PyInt 10; fiber := PyInt 2;
                        notes := lit "Pizza is usually high in calories, refined flour and fats." |} |};
          {| name := lit "fries"; quantity := 1;
             data := {| calories := PyInt 180; protein := PyInt 2;
                        carbs := PyInt 22; fat := PyInt 9; fiber := PyInt 2;
                        notes := lit "Fries are deep fried and high in unhealthy fats." |} |};
          {| name := lit "soda"; quantity := 3;
             data := {| calories := PyInt 140; protein := PyInt 0;
                        carbs := PyInt 39; fat := PyInt 0; fiber := PyInt 0;
                        notes := lit "Soda has a lot of sugar and almost no nutrients." |} |} ])
      by (vm_compute; reflexivity).
    rewrite E. intros field Hin.
    repeat (destruct Hin as [<-|Hin];
            [split;
             [repeat constructor; eexists; (split; [reflexivity|]);
              cbn [quantity]; lia
             |vm_compute; reflexivity]|]).
    contradiction.
  - vm_compute. reflexivity.
Defined.

(** X10. On the items the matcher emits for a text, the aggregator returns
    a summary whenever every quantity is below [2^900]; unless there is no
    item, the summary opens with the heading of the breakdown. *)
Theorem summary_of_bounded_quantities {U : UnicodeData}
  (text : str) (food_items : list MatchedItem) :
  analyze_food_text text = Ok food_items ->
  Forall (fun item => (quantity item < 2 ^ 900)%Z) food_items ->
  exists summary,
    build_nutrition_summary food_items = Ok summary /\
    (food_items = [] \/ starts_with (lit "Nutrition breakdown:") summary = true).
Proof.
  intros Ha Hq.
  destruct (summary_of_matched_items text food_items Ha Hq) as (summary & Hb).
  exists summary. split; [exact Hb|].
  destruct food_items as [|item rest]; [now left|right].
  cbn [build_nutrition_summary] in Hb.
  destruct (summary_loop (item :: rest) (zero_totals, [])) as [[t ls]|e];
    [|discriminate].
  cbn [bind] in Hb.
  destruct (totals_block t) as [block|e]; [|discriminate].
  cbn [bind] in Hb.
  replace summary with (lit "Nutrition breakdown:"
                        ++ (nl ++ join nl ls ++ nl ++ nl ++ dedent block))
    by congruence.
  apply starts_with_app.
Qed.

Lemma summary_of_bounded_quantities_witness :
  exists summary,
    build_nutrition_summary (items_of (analyze_food_text (lit "2 eggs")))
      = Ok summary /\
    (items_of (analyze_food_text (lit "2 eggs")) = [] \/
     starts_with (lit "Nutrition breakdown:") summary = true).
Proof.
  apply (summary_of_bounded_quantities (lit "2 eggs")).
  - vm_compute. reflexivity.
  - match goal with
    | |- Forall ?P ?l => let l' := eval vm_compute in l in change (Forall P l')
    end.
    repeat constructor.
Defined.

(** ** The chat handler: white space, replies and effects *)

Section StripFacts.
Context {U : UnicodeData}.

Lemma lstrip_spec (s : str) :
  exists a, s = a ++ lstrip s /\
            Forall (fun c => is_space c = true) a /\
            match lstrip s with
            | [] => True
            | c :: _ => is_space c = false
            end.
Proof.
  induction s as [|c s (a & E & Ha & Hhd)]; cbn [lstrip].
  - exists []. repeat split. constructor.
  - destruct (is_space c) eqn:Hc.
    + exists (c :: a). split; [cbn; congruence|]. split; [|exact Hhd].
      now constructor.
    + exists []. split; [reflexivity|]. split; [constructor|exact Hc].
Qed.

Lemma lstrip_pad (a s : str) :
  Forall (fun c => is_space c = true) a -> lstrip (a ++ s) = lstrip s.
Proof.
  induction 1 as [|c a Hc _ IH]; [reflexivity|].
  cbn [app lstrip]. now rewrite Hc.
Qed.

Lemma lstrip_app (s b : str) :
  lstrip s <> [] -> lstrip (s ++ b) = lstrip s ++ b.
Proof.
  induction s as [|c s IH]; cbn [lstrip app]; intros H; [congruence|].
  destruct (is_space c); [now apply IH|reflexivity].
Qed.

(** [strip] cuts white space from both ends and nothing else. *)
Lemma strip_spec (s : str) :
  exists a b, s = a ++ strip s ++ b /\
              Forall (fun c => is_space c = true) a /\
              Forall (fun c => is_space c = true) b /\
              trimmed (strip s).
Proof.
  destruct (lstrip_spec s) as (a & Es & Ha & Hx).
  destruct (lstrip_spec (rev (lstrip s))) as (b' & Er & Hb & Hy).
  unfold strip. set (x := lstrip s) in *. set (y := lstrip (rev x)) in *.
  assert (Ex : x = rev y ++ rev b').
  { rewrite <- rev_app_distr, <- Er. symmetry. apply rev_involutive. }
  exists a, (rev b'). split; [now rewrite <- Ex|].
  split; [assumption|]. split; [now apply Forall_rev|].
  split; [|now rewrite rev_involutive].
  destruct (rev y) as [|c z] eqn:Ey; [exact I|].
  rewrite Ex in Hx. exact Hx.
Qed.

Lemma strip_pad (a s b : str) :
  Forall (fun c => is_space c = true) a ->
  Forall (fun c => is_space c = true) b ->
  strip (a ++ s ++ b) = strip s.
Proof.
  intros Ha Hb. unfold strip. rewrite (lstrip_pad a _ Ha).
  destruct (lstrip s) as [|c x] eqn:Hx.
  - destruct (lstrip_spec s) as (a' & Es & Ha' & _). rewrite Hx, app_nil_r in Es.
    subst a'. rewrite (lstrip_pad s b Ha'). rewrite (lstrip_blank b Hb).
    reflexivity.
  - rewrite lstrip_app by congruence. rewrite Hx, rev_app_distr.
    now rewrite (lstrip_pad (rev b)) by now apply Forall_rev.
Qed.

End StripFacts.

(** X11. When the service returns a text, the handler answers with status
    200 and this text without the white space around it, after the one call
    of the service and with nothing printed. *)
Theorem chat_relays_service_text {U : UnicodeData}
  (service : str -> result str) (message : option str)
  (food_items : list MatchedItem) (summary text : str) :
  let user_message := strip (message_text message) in
  user_message <> [] ->
  analyze_food_text user_message = Ok food_items ->
  build_nutrition_summary food_items = Ok summary ->
  service (build_prompt user_message summary) = Ok text ->
  chat service message =
    (Ok {| reply := strip text; status := 200 |},
     [GenerateContent (build_prompt user_message summary)]) /\
  trimmed (strip text) /\
  exists a b, text = a ++ strip text ++ b /\
              Forall (fun c => is_space c = true) a /\
              Forall (fun c => is_space c = true) b.
Proof.
  intros um Hne Ha Hb Hs. split.
  - unfold chat. fold um.
    destruct um as [|c um']; [congruence|].
    rewrite Ha, Hb. unfold ask_gemini. rewrite Hs. reflexivity.
  - destruct (strip_spec text) as (a & b & E & Sa & Sb & T).
    split; [exact T|]. now exists a, b.
Qed.

Lemma chat_relays_service_text_witness :
  chat (fun _ => Ok (lit "  Nice meal!
")) (Some (lit " 2 eggs ")) =
    (Ok {| reply := lit "Nice meal!"; status := 200 |},
     [GenerateContent (build_prompt (lit "2 eggs") two_eggs_summary)]).
Proof.
  pose proof (chat_relays_service_text (fun _ => Ok (lit "  Nice meal!
")) (Some (lit " 2 eggs ")) (items_of (analyze_food_text (lit "2 eggs")))
     two_eggs_summary (lit "  Nice meal!
")) as H.
  cbv zeta in H.
  assert (E : strip (message_text (Some (lit " 2 eggs "))) = lit "2 eggs")
    by (vm_compute; reflexivity).
  rewrite E in H.
  assert (E' : strip (lit "  Nice meal!
") = lit "Nice meal!") by (vm_compute; reflexivity).
  rewrite E' in H. apply H.
  - vm_compute. discriminate.
  - vm_compute. reflexivity.
  - vm_compute. reflexivity.
  - reflexivity.
Defined.

(** X12. Whatever the message and the service, the handler answers with
    status 200 whenever it answers, calls the service at most once, prints
    at most one line and only after the call; and when an exception leaves
    the handler, no call was made and nothing was printed. *)
Theorem chat_effects {U : UnicodeData}
  (service : str -> result str) (message : option str) :
  match chat service message with
  | (Ok response, events) =>
      status response = 200%Z /\
      (events = [] \/
       exists prompt,
         events = [GenerateContent prompt] \/
         exists line, events = [GenerateContent prompt; Printed line])
  | (Raise _, events) => events = []
  end.
Proof.
  unfold chat.
  destruct (strip (message_text message)) as [|c um]; [now split; [|left]|].
  destruct (analyze_food_text (c :: um)) as [items|e]; [|reflexivity].
  destruct (build_nutrition_summary items) as [summary|e]; [|reflexivity].
  unfold ask_gemini.
  destruct (service (build_prompt (c :: um) summary)) as [text|e]; cbn [bind].
  - split; [reflexivity|]. right. eexists. left. reflexivity.
  - split; [reflexivity|]. right. eexists. right. eexists. reflexivity.
Qed.

(** X13. White space around the message makes no difference to the
    handler: response and events are those of the message without it. *)
Theorem chat_ignores_surrounding_space {U : UnicodeData}
  (service : str -> result str) (a m b : str) :
  Forall (fun c => is_space c = true) a ->
  Forall (fun c => is_space c = true) b ->
  chat service (Some (a ++ m ++ b)) = chat service (Some m).
Proof.
  intros Ha Hb. unfold chat. cbn [message_text].
  now rewrite (strip_pad a m b Ha Hb).
Qed.

Lemma chat_ignores_surrounding_space_witness :
  chat (fun _ => Ok (lit "ok")) (Some (lit "  " ++ lit "1 dal" ++ nl)) =
  chat (fun _ => Ok (lit "ok")) (Some (lit "1 dal")).
Proof.
  apply (chat_ignores_surrounding_space (fun _ => Ok (lit "ok"))
           (lit "  ") (lit "1 dal") nl).
  - vm_compute. repeat constructor.
  - vm_compute. repeat constructor.
Defined.



(** X15. For a message that is not blank and gives quantities below
    [2^900], the handler calls the service exactly once, with the prompt
    built from the stripped message and the summary of the matched items,
    prints at most one line after it, and answers with status 200. *)
Theorem chat_calls_service_once {U : UnicodeData}
  (service : str -> result str) (message : option str)
  (food_items : list MatchedItem) :
  let user_message := strip (message_text message) in
  user_message <> [] ->
  analyze_food_text user_message = Ok food_items ->
  Forall (fun item => (quantity item < 2 ^ 900)%Z) food_items ->
  exists summary reply_text printed,
    build_nutrition_summary food_items = Ok summary /\
    chat service message =
      (Ok {| reply := reply_text; status := 200 |},
       GenerateContent (build_prompt user_message summary) :: printed) /\
    (printed = [] \/ exists line, printed = [Printed line]).
Proof.
  intros um Hne Ha Hq.
  destruct (summary_of_matched_items um food_items Ha Hq) as (summary & Hb).
  exists summary. unfold chat. fold um.
  destruct um as [|c um']; [congruence|].
  rewrite Ha, Hb. unfold ask_gemini.
  destruct (service (build_prompt (c :: um') summary)) as [text|e]; cbn [bind].
  - exists (strip text), []. repeat split. now left.
  - exists fallback_reply. eexists. repeat split. right. eexists. reflexivity.
Qed.

Lemma chat_calls_service_once_witness :
  exists summary reply_text printed,
    build_nutrition_summary (items_of (analyze_food_text (lit "2 eggs")))
      = Ok summary /\
    chat (fun _ => Ok (lit "Nice meal!")) (Some (lit " 2 eggs ")) =
      (Ok {| reply := reply_text; status := 200 |},
       GenerateContent (build_prompt (lit "2 eggs") summary) :: printed) /\
    (printed = [] \/ exists line, printed = [Printed line]).
Proof.
  pose proof (chat_calls_service_once (fun _ => Ok (lit "Nice meal!"))
                (Some (lit " 2 eggs "))
                (items_of (analyze_food_text (lit "2 eggs")))) as H.
  cbv zeta in H.
  assert (E : strip (message_text (Some (lit " 2 eggs "))) = lit "2 eggs")
    by (vm_compute; reflexivity).
  rewrite E in H. apply H.
  - vm_compute. discriminate.
  - vm_compute. reflexivity.
  - match goal with
    | |- Forall ?P ?l => let l' := eval vm_compute in l in change (Forall P l')
    end.
    repeat constructor.
Defined.
